(** * gcstats: price derivation, FX cross rates, deviation and row assembly

    A shallow embedding of [app.py].

    Numbers.  Python's [int] is [Z].  Python's [float] is modelled by the
    exact rationals [Q]: every operation is the exact one, so rounding,
    infinities and NaN are outside the model.  An [int] that meets a [float]
    in arithmetic is injected with [inject_Z].  Equalities between computed
    numbers are stated with [==] (equality of rationals).

    Effects.  The network is an explicit environment [env] that gives the
    outcome of every remote call; a call that raises is [Raise e].  Python
    exceptions are the error monad [exc]; [try/except Exception] is a match
    on it.  Log output is not modelled.

    Data.  The rate service's table maps a currency code to a JSON number or
    null, so a rate is [None] or a number.  A dict with fixed keys is a
    record, a dict that tags success or failure is an inductive type, and
    the rate table, whose keys come and go, is a [gmap].

    Caching.  Every fetching function carries [@st.cache_data(ttl=...)].
    The functions are embedded as their bodies, and the properties of the
    bodies hold for every world, hence for whatever value the cache hands
    back; the decorator itself is modelled in [Cache], from section 4.5 of
    the specification. *)

From Stdlib Require Import ZArith QArith Qabs Qround Qpower Lia Lqa String Ascii List Bool.
From Stdlib Require Import PrimFloat.
From stdpp Require Import base option gmap strings pretty.
Import ListNotations.

Local Open Scope string_scope.
Local Open Scope Z_scope.

(** ** Exceptions *)

Inductive exn : Type :=
  | ZeroDivisionError (msg : string)
  | Exception (msg : string).

(** [str(e)] *)
Definition str_exn (e : exn) : string :=
  match e with
  | ZeroDivisionError msg => msg
  | Exception msg => msg
  end.

Inductive exc (A : Type) : Type :=
  | Ok (a : A)
  | Raise (e : exn).
Arguments Ok {A} a.
Arguments Raise {A} e.

#[global] Instance exc_ret : MRet exc := fun A a => Ok a.
#[global] Instance exc_bind : MBind exc := fun A B k m =>
  match m with
  | Ok a => k a
  | Raise e => Raise e
  end.
#[global] Instance exc_fmap : FMap exc := fun A B f m =>
  match m with
  | Ok a => Ok (f a)
  | Raise e => Raise e
  end.

(** ** Python numbers *)

(** [x < y] on numbers *)
Definition Qltb (x y : Q) : bool := negb (Qle_bool y x).

(** truth value of a number: [bool(x)] is [x != 0] *)
Definition truthy_num (x : Q) : bool := negb (Qeq_bool x 0).

(** truth value of [None] or a number *)
Definition truthy (v : option Q) : bool :=
  match v with
  | None => false
  | Some x => truthy_num x
  end.

(** true division [x / y]; Python raises on a zero divisor *)
Definition py_div (x y : Q) : exc Q :=
  if Qeq_bool y 0 then Raise (ZeroDivisionError "division by zero")
  else Ok (x / y)%Q.

(** [b ** e] on two ints: an int for [e >= 0], else the float [b ** e],
    which raises for [b = 0] *)
Definition py_int_pow (b e : Z) : exc Q :=
  if 0 <=? e then Ok (inject_Z (b ^ e))
  else if b =? 0 then Raise (ZeroDivisionError "0.0 cannot be raised to a negative power")
  else Ok (/ inject_Z (b ^ (- e)))%Q.

(** ** Python strings *)

(** [s[:n]] *)
Definition str_take (n : nat) (s : string) : string := substring 0 n s.

(** [s[-n:]] *)
Definition str_last (n : nat) (s : string) : string :=
  substring (String.length s - n) n s.

(** [str.zfill]-like left padding with zeros up to [n] characters *)
Fixpoint zeros (n : nat) : string :=
  match n with
  | O => ""
  | S n' => "0" +:+ zeros n'
  end.

Definition zfill (n : nat) (s : string) : string :=
  zeros (n - String.length s) +:+ s.

(** round half to even of a non-negative rational *)
Definition round_half_even (x : Q) : Z :=
  let f := Qfloor x in
  let r := (x - inject_Z f)%Q in
  if Qltb r (1 # 2) then f
  else if Qltb (1 # 2) r then f + 1
  else if Z.even f then f else f + 1.

(** [format(x, ".<prec>f")], and with [plus] the format [+.<prec>f]: the
    value is rounded half to even at [prec] decimals, the sign is that of
    [x] itself *)
Definition format_f (plus : bool) (prec : nat) (x : Q) : string :=
  let n := round_half_even (Qabs x * inject_Z (10 ^ Z.of_nat prec))%Q in
  let sign := if Qltb x 0 then "-" else if plus then "+" else "" in
  let ip := pretty (n / 10 ^ Z.of_nat prec) in
  let fp := zfill prec (pretty (n mod 10 ^ Z.of_nat prec)) in
  match prec with
  | O => sign +:+ ip
  | _ => sign +:+ ip +:+ "." +:+ fp
  end.


(** ** Values that are [None] or a number *)

(** [d.get(k)] on a dict whose values are [None] or numbers: [None] for a
    missing key as for a key that holds [None] *)
Definition dict_get (d : gmap string (option Q)) (k : string) : option Q :=
  default None (d !! k).

(** [d[k]] *)
Definition dict_getitem (d : gmap string (option Q)) (k : string) : exc (option Q) :=
  match d !! k with
  | Some v => Ok v
  | None => Raise (Exception k)
  end.

(** a number is required where [None] may arrive: [TypeError] *)
Definition as_num (v : option Q) : exc Q :=
  match v with
  | Some x => Ok x
  | None => Raise (Exception "unsupported operand type(s): 'NoneType'")
  end.

(** truth value of a string *)
Definition truthy_str (s : string) : bool :=
  match s with
  | EmptyString => false
  | _ => true
  end.

(** ** The outside world *)

(** what [slot0()] returns, after the pool ABI *)
Record slot0_t : Type := {
  sqrtPriceX96 : Z;
  tick : Z;
  observationIndex : Z;
  observationCardinality : Z;
  observationCardinalityNext : Z;
  feeProtocol : Z;
  unlocked : bool }.

(** one JSON-RPC endpoint: the outcome of each read-only call, by contract
    address *)
Record web3 : Type := {
  get_balance : string -> exc Z;
  call_slot0 : string -> exc slot0_t;
  call_token0 : string -> exc string;
  call_token1 : string -> exc string;
  call_decimals : string -> exc Z;
  call_convertToAssets : string -> Z -> exc Z;
  call_vaultAPY : string -> exc Z }.

(** the parsed body of the rate service's answer: a JSON object, with its
    ["rates"] member when it has one (currency code to number or null), or
    any other JSON value *)
Inductive json_body : Type :=
  | JsonObject (rates : option (gmap string (option Q)))
  | JsonOther.

Record response : Type := {
  status_code : Z;
  json : exc json_body }.

Record struct_time : Type := {
  tm_year : Z; tm_mon : Z; tm_mday : Z;
  tm_hour : Z; tm_min : Z; tm_sec : Z }.

Record env : Type := {
  w3_gnosis : web3;
  w3_mainnet : web3;
  to_checksum_address : string -> exc string;
  requests_get : string -> exc response;
  gmtime : struct_time }.

(** [time.strftime('%Y-%m-%d %H:%M:%S UTC', t)] *)
Definition strftime (t : struct_time) : string :=
  zfill 4 (pretty (tm_year t)) +:+ "-" +:+ zfill 2 (pretty (tm_mon t)) +:+ "-" +:+
  zfill 2 (pretty (tm_mday t)) +:+ " " +:+ zfill 2 (pretty (tm_hour t)) +:+ ":" +:+
  zfill 2 (pretty (tm_min t)) +:+ ":" +:+ zfill 2 (pretty (tm_sec t)) +:+ " UTC".

(** ** Configuration *)

Record bot : Type := {
  bot_address : string;
  bot_name : string;
  bot_chain : string }.

Definition BOTS : list bot := [
  {| bot_address := "0x90463d5c5B7384b630FfEAF759ab91811457CBAb"; bot_name := "BRIDGE BOT"; bot_chain := "mainnet" |};
  {| bot_address := "0xFA0951092B227b0103062D3EDDFC2FCcB13e9C1D"; bot_name := "TEMP BOT"; bot_chain := "mainnet" |} ].

Definition SDAI_ADDRESS : string := "0xaf204776c7245bf4147c2612bf6e5972ee483701".
Definition SDAI_VAULT_ADDRESS : string := "0xD499b51fcFc66bd31248ef4b28d656d67E591A94".

(** a pool entry; [sdai_adjust] is [None] where the entry has no such key *)
Record pool : Type := {
  address : string;
  pair : string;
  fx_pair : string;
  sdai_adjust : option bool }.

Definition POOLS : list pool := [
  {| address := "0x576bf065cbc15cb2d61affb156118fcff01a8238"; pair := "USDC.E/BRLA"; fx_pair := "USD/BRL"; sdai_adjust := None |};
  {| address := "0x1bb53efa5523c80b598b561e266dfdc938f80e4f"; pair := "EURE/ZCHF"; fx_pair := "EUR/CHF"; sdai_adjust := None |};
  {| address := "0x9fc285501a38d734e7b42147445d303cf8f7946b"; pair := "BRZ/USDC.E"; fx_pair := "BRL/USD"; sdai_adjust := None |};
  {| address := "0x22eb73322b6334ccf07fc2f9f22690a012d22797"; pair := "GBPE/SDAI"; fx_pair := "GBP/USD"; sdai_adjust := Some true |} ].

(** ** get_sdai_rate, get_sdai_apy *)

Definition get_sdai_rate_try (e : env) : exc Q :=
  a ← to_checksum_address e SDAI_ADDRESS;
  assets ← call_convertToAssets (w3_gnosis e) a (10 ^ 18);
  py_div (inject_Z assets) (inject_Z (10 ^ 18)).

Definition get_sdai_rate (e : env) : Q :=
  match get_sdai_rate_try e with
  | Ok r => r
  | Raise _ => 1
  end.

Definition get_sdai_apy_try (e : env) : exc Q :=
  a ← to_checksum_address e SDAI_VAULT_ADDRESS;
  apy_wei ← call_vaultAPY (w3_gnosis e) a;
  q ← py_div (inject_Z apy_wei) (inject_Z (10 ^ 18));
  Ok (q * 100)%Q.

Definition get_sdai_apy (e : env) : Q :=
  match get_sdai_apy_try e with
  | Ok r => r
  | Raise _ => 0
  end.

(** ** get_fx_rates *)

(** The body of the [try] fills the dict [rates] in place, and what it has
    stored stays stored when a later statement raises: a state monad over
    the dict, with exceptions that keep the state. *)
Definition fx (A : Type) : Type :=
  gmap string (option Q) -> exc A * gmap string (option Q).

#[global] Instance fx_ret : MRet fx := fun A a rates => (Ok a, rates).
#[global] Instance fx_bind : MBind fx := fun A B k m rates =>
  match m rates with
  | (Ok a, rates') => k a rates'
  | (Raise ex, rates') => (Raise ex, rates')
  end.

Definition fx_lift {A : Type} (m : exc A) : fx A := fun rates => (m, rates).

(** [rates[k] = v] *)
Definition rates_set (k : string) (v : option Q) : fx unit :=
  fun rates => (Ok tt, <[k := v]> rates).

(** [rates.get(k)] *)
Definition rates_get (k : string) : fx (option Q) :=
  fun rates => (Ok (dict_get rates k), rates).

(** [rates[k]] *)
Definition rates_getitem (k : string) : fx (option Q) :=
  fun rates => (dict_getitem rates k, rates).

(** [resp.json().get("rates", {})] *)
Definition json_get_rates (body : json_body) : exc (gmap string (option Q)) :=
  match body with
  | JsonObject r => Ok (default ∅ r)
  | JsonOther => Raise (Exception "object has no attribute 'get'")
  end.

Definition FX_URL : string := "https://api.exchangerate-api.com/v4/latest/USD".

Definition get_fx_rates_try (e : env) : fx unit :=
  resp ← fx_lift (requests_get e FX_URL);
  if status_code resp =? 200 then
    body ← fx_lift (json resp);
    usd ← fx_lift (json_get_rates body);
    rates_set "USD/BRL" (dict_get usd "BRL");;
    rates_set "USD/CHF" (dict_get usd "CHF");;
    rates_set "USD/EUR" (dict_get usd "EUR");;
    rates_set "USD/GBP" (dict_get usd "GBP");;
    brl ← rates_get "USD/BRL";
    (if truthy brl then
       v ← rates_getitem "USD/BRL";
       x ← fx_lift (as_num v);
       q ← fx_lift (py_div 1 x);
       rates_set "BRL/USD" (Some q)
     else mret tt);;
    chf ← rates_get "USD/CHF";
    eur ← rates_get "USD/EUR";
    (if truthy chf && truthy eur then
       v ← rates_getitem "USD/CHF";
       w ← rates_getitem "USD/EUR";
       x ← fx_lift (as_num v);
       y ← fx_lift (as_num w);
       q ← fx_lift (py_div x y);
       rates_set "EUR/CHF" (Some q)
     else mret tt);;
    gbp ← rates_get "USD/GBP";
    (if truthy gbp then
       v ← rates_getitem "USD/GBP";
       x ← fx_lift (as_num v);
       q ← fx_lift (py_div 1 x);
       rates_set "GBP/USD" (Some q)
     else mret tt)
  else mret tt.

(** [rates = {}], the [try], and [return rates] whether or not it raised *)
Definition get_fx_rates (e : env) : exc (gmap string (option Q)) :=
  let rates := ∅ in
  match get_fx_rates_try e rates with
  | (Ok _, rates) => Ok rates
  | (Raise _, rates) => Ok rates
  end.

(** ** get_pool_price, get_bot_balance *)

(** [{"price": price, "success": True}] or
    [{"success": False, "error": str(e)}] *)
Inductive price_result : Type :=
  | PriceOk (price : Q)
  | PriceFail (error : string).

Definition get_pool_price_try (e : env) (pool_address : string) : exc Q :=
  a ← to_checksum_address e pool_address;
  slot0 ← call_slot0 (w3_gnosis e) a;
  let sqrt_price_x96 := sqrtPriceX96 slot0 in
  token0_addr ← call_token0 (w3_gnosis e) a;
  token1_addr ← call_token1 (w3_gnosis e) a;
  decimals0 ← call_decimals (w3_gnosis e) token0_addr;
  decimals1 ← call_decimals (w3_gnosis e) token1_addr;
  x ← py_div (inject_Z sqrt_price_x96) (inject_Z (2 ^ 96));
  p ← py_int_pow 10 (decimals0 - decimals1);
  Ok (x ^ 2 * p)%Q.

Definition get_pool_price (e : env) (pool_address : string) : price_result :=
  match get_pool_price_try e pool_address with
  | Ok price => PriceOk price
  | Raise ex => PriceFail (str_exn ex)
  end.

(** [{"balance": balance_eth, "success": True}] or
    [{"success": False, "error": str(e)}] *)
Inductive balance_result : Type :=
  | BalanceOk (balance : Q)
  | BalanceFail (error : string).

Definition get_bot_balance_try (e : env) (address chain : string) : exc Q :=
  let w3 := if String.eqb chain "mainnet" then w3_mainnet e else w3_gnosis e in
  a ← to_checksum_address e address;
  balance_wei ← get_balance w3 a;
  py_div (inject_Z balance_wei) (inject_Z (10 ^ 18)).

Definition get_bot_balance (e : env) (address chain : string) : balance_result :=
  match get_bot_balance_try e address chain with
  | Ok balance_eth => BalanceOk balance_eth
  | Raise ex => BalanceFail (str_exn ex)
  end.

(** ** fetch_pool_data *)

Record pool_row : Type := {
  row_pair : string;
  row_addr : string;
  row_full_addr : string;
  row_price : string;
  row_fx_pair : string;
  row_fx_rate : string;
  row_dev : string }.

(** [pool_price] after the yield adjustment of lines 215-217 *)
Definition adjusted_price (p : pool) (price sdai_rate : Q) : Q :=
  let pool_price := price in
  if default false (sdai_adjust p) then (pool_price * sdai_rate)%Q else pool_price.

(** [fx_rates.get(fx_pair) if fx_pair else None] *)
Definition benchmark (p : pool) (fx_rates : gmap string (option Q)) : option Q :=
  if truthy_str (fx_pair p) then dict_get fx_rates (fx_pair p) else None.

(** [((pool_price - fx_rate) / fx_rate) * 100] *)
Definition deviation (pool_price : Q) (fx_rate : option Q) : exc Q :=
  b ← as_num fx_rate;
  q ← py_div (pool_price - b)%Q b;
  Ok (q * 100)%Q.

Definition dev_class (dev : Q) : string :=
  if Qltb (Qabs dev) (1 # 2) then "positive"
  else if Qltb 2 (Qabs dev) then "negative"
  else "neutral".

(** [f"<span class='{dev_class}'>{dev:+.2f}%</span>"] *)
Definition dev_span (cls : string) (dev : Q) : string :=
  "<span class='" +:+ cls +:+ "'>" +:+ format_f true 2 dev +:+ "%</span>".

(** lines 222-232 *)
Definition dev_str (pool_price : Q) (fx_rate : option Q) : exc string :=
  if truthy fx_rate && Qltb 0 pool_price then
    dev ← deviation pool_price fx_rate;
    Ok (dev_span (dev_class dev) dev)
  else Ok "—".

(** [f"{a[:8]}..{a[-4:]}"] *)
Definition short_addr (a : string) : string :=
  str_take 8 a +:+ ".." +:+ str_last 4 a.

(** [s or "—"] *)
Definition or_dash (s : string) : string :=
  if truthy_str s then s else "—".

(** the body of the loop, for the pool [p] and what [get_pool_price] gave *)
Definition pool_row_of (p : pool) (data : price_result)
    (fx_rates : gmap string (option Q)) (sdai_rate : Q) : exc pool_row :=
  match data with
  | PriceOk price =>
      let pool_price := adjusted_price p price sdai_rate in
      let fx_rate := benchmark p fx_rates in
      d ← dev_str pool_price fx_rate;
      Ok {| row_pair := pair p;
            row_addr := short_addr (address p);
            row_full_addr := address p;
            row_price := format_f false 4 pool_price;
            row_fx_pair := or_dash (fx_pair p);
            row_fx_rate := match fx_rate with
                           | Some r => if truthy_num r then format_f false 4 r else "—"
                           | None => "—"
                           end;
            row_dev := d |}
  | PriceFail _ =>
      Ok {| row_pair := pair p;
            row_addr := short_addr (address p);
            row_full_addr := address p;
            row_price := "ERR";
            row_fx_pair := or_dash (fx_pair p);
            row_fx_rate := "—";
            row_dev := "—" |}
  end.

(** [for pool in POOLS: ... rows.append(...)] *)
Fixpoint pool_loop (e : env) (fx_rates : gmap string (option Q)) (sdai_rate : Q)
    (pools : list pool) (rows : list pool_row) : exc (list pool_row) :=
  match pools with
  | [] => Ok rows
  | p :: rest =>
      let data := get_pool_price e (address p) in
      row ← pool_row_of p data fx_rates sdai_rate;
      pool_loop e fx_rates sdai_rate rest (rows ++ [row])
  end.

(** The source iterates over the module-level list [POOLS]; here the list is
    an argument, and [POOLS] is one value of it. *)
Definition fetch_pool_data (e : env) (pools : list pool) : exc (list pool_row * string) :=
  fx_rates ← get_fx_rates e;
  let sdai_rate := get_sdai_rate e in
  rows ← pool_loop e fx_rates sdai_rate pools [];
  Ok (rows, strftime (gmtime e)).

(** ** fetch_bot_data *)

Record bot_row : Type := {
  row_name : string;
  row_address : string;
  row_addr_short : string;
  row_chain : string;
  row_balance : string;
  row_explorer : string }.

Definition bot_row_of (b : bot) (data : balance_result) : bot_row :=
  let balance := match data with
                 | BalanceOk bal => format_f false 4 bal
                 | BalanceFail _ => "ERR"
                 end in
  let explorer := if String.eqb (bot_chain b) "mainnet"
                  then "https://etherscan.io" else "https://gnosisscan.io" in
  {| row_name := bot_name b;
     row_address := bot_address b;
     row_addr_short := short_addr (bot_address b);
     row_chain := bot_chain b;
     row_balance := balance;
     row_explorer := explorer |}.

Fixpoint bot_loop (e : env) (bots : list bot) (rows : list bot_row) : list bot_row :=
  match bots with
  | [] => rows
  | b :: rest =>
      let data := get_bot_balance e (bot_address b) (bot_chain b) in
      bot_loop e rest (rows ++ [bot_row_of b data])
  end.

(** As for the pools, the list [BOTS] of the source is an argument.  Nothing
    in the body can raise. *)
Definition fetch_bot_data (e : env) (bots : list bot) : list bot_row * string :=
  let rows := bot_loop e bots [] in
  (rows, strftime (gmtime e)).

(** ** The TTL cache layer ([st.cache_data]) *)

Module Cache.
Section cache_data.
Context {K V : Type} `{Countable K}.

(** Modelled from the spec: a CacheEntry, the stored value with its
    creation time (the decorator's own code is not part of [app.py]). *)
Record entry : Type := {
  stored : V;
  created : Z }.

(** Modelled from the spec: the cache of one decorated function, keyed by
    the argument tuple, together with the log of the invocations of the
    function underneath (arguments and time), kept to count them. *)
Record state : Type := {
  entries : gmap K entry;
  invoked : list (K * Z) }.

(** the decorator's [ttl], in seconds *)
Variable ttl : Z.
(** the decorated function: what it returns for these arguments when it
    is invoked at this time *)
Variable fetch : K -> Z -> V.

(** Modelled from the spec: the entry of [args] that may be served at
    [now], one whose age is below the TTL. *)
Definition live (args : K) (now : Z) (s : state) : option entry :=
  match entries s !! args with
  | Some en => if bool_decide (now - created en < ttl) then Some en else None
  | None => None
  end.

(** Modelled from the spec: section 4.5, a call of the decorated function
    at time [now].  If an entry exists and its age is below the TTL, the
    stored value is returned and the function is not invoked; otherwise
    the function is invoked, its result replaces the entry and is
    returned. *)
Definition call (args : K) (now : Z) (s : state) : V * state :=
  match live args now s with
  | Some en => (stored en, s)
  | None =>
      let v := fetch args now in
      (v, {| entries := <[args := {| stored := v; created := now |}]> (entries s);
             invoked := invoked s ++ [(args, now)] |})
  end.

(** a sequence of calls, in order; the values returned and the final state *)
Fixpoint run (cs : list (K * Z)) (s : state) : list V * state :=
  match cs with
  | [] => ([], s)
  | (args, now) :: rest =>
      let '(v, s1) := call args now s in
      let '(vs, s2) := run rest s1 in
      (v :: vs, s2)
  end.

(** how often the function underneath was invoked for [args] *)
Definition invocations (args : K) (s : state) : nat :=
  length (filter (fun c => c.1 = args) (invoked s)).
End cache_data.
End Cache.

(** [@st.cache_data(ttl=60)] on [get_sdai_rate] and on [get_pool_price],
    [@st.cache_data(ttl=300)] on [get_fx_rates]; [world now] is the outside
    world at time [now]. *)
Definition get_sdai_rate_cached (world : Z -> env) :=
  Cache.call 60 (fun (_ : unit) now => get_sdai_rate (world now)).

Definition get_pool_price_cached (world : Z -> env) :=
  Cache.call 60 (fun pool_address now => get_pool_price (world now) pool_address).

Definition get_fx_rates_cached (world : Z -> env) :=
  Cache.call 300 (fun (_ : unit) now => get_fx_rates (world now)).

(** ** The specification's formulas *)

(** section 4.2: (raw_sqrt_price / 2^96)^2 x 10^(decimals0 - decimals1) *)
Definition normalized_price_spec (raw_sqrt_price decimals0 decimals1 : Z) : Q :=
  ((inject_Z raw_sqrt_price / 2 ^ 96) ^ 2 * 10 ^ (decimals0 - decimals1))%Q.

(** section 4.6: (P - B) / B x 100 *)
Definition deviation_pct_spec (P B : Q) : Q := ((P - B) / B * 100)%Q.

(** ** Sample worlds *)

Definition w3_down : web3 := {|
  get_balance := fun _ => Raise (Exception "connection refused");
  call_slot0 := fun _ => Raise (Exception "connection refused");
  call_token0 := fun _ => Raise (Exception "connection refused");
  call_token1 := fun _ => Raise (Exception "connection refused");
  call_decimals := fun _ => Raise (Exception "connection refused");
  call_convertToAssets := fun _ _ => Raise (Exception "connection refused");
  call_vaultAPY := fun _ => Raise (Exception "connection refused") |}.

(** an endpoint where every pool has the raw price [raw] and tokens of
    [d0] and [d1] decimals, except the pool [bad], whose [slot0] fails *)
Definition w3_sample (raw d0 d1 : Z) (assets : exc Z) (bad : string) : web3 := {|
  get_balance := fun _ => Ok (25 * 10 ^ 17);
  call_slot0 := fun a =>
    if String.eqb a bad then Raise (Exception "execution reverted")
    else Ok {| sqrtPriceX96 := raw; tick := 0; observationIndex := 0;
               observationCardinality := 1; observationCardinalityNext := 1;
               feeProtocol := 0; unlocked := true |};
  call_token0 := fun _ => Ok "token0";
  call_token1 := fun _ => Ok "token1";
  call_decimals := fun a => Ok (if String.eqb a "token0" then d0 else d1);
  call_convertToAssets := fun _ _ => assets;
  call_vaultAPY := fun _ => Ok (5 * 10 ^ 16) |}.

Definition usd_sample : gmap string (option Q) :=
  <["BRL" := Some 5%Q]> (<["EUR" := Some (9 # 10)]>
  (<["CHF" := Some (95 # 100)]> (<["GBP" := Some (8 # 10)]> ∅))).

Definition clock_sample : struct_time :=
  {| tm_year := 2024; tm_mon := 3; tm_mday := 7; tm_hour := 9; tm_min := 5; tm_sec := 0 |}.

Definition env_sample (w3 : web3) (http : exc response) : env := {|
  w3_gnosis := w3;
  w3_mainnet := w3;
  to_checksum_address := fun a => Ok a;
  requests_get := fun _ => http;
  gmtime := clock_sample |}.

Definition http_sample : exc response :=
  Ok {| status_code := 200; json := Ok (JsonObject (Some usd_sample)) |}.

(** an endpoint where every pool has the raw price [raw], the tokens of the
    pool [a] are called [a:0] and [a:1], and [dec] gives a token's decimals *)
Definition w3_tokens (raw : Z) (dec : string -> Z) : web3 := {|
  get_balance := fun _ => Ok 0;
  call_slot0 := fun _ =>
    Ok {| sqrtPriceX96 := raw; tick := 0; observationIndex := 0;
          observationCardinality := 1; observationCardinalityNext := 1;
          feeProtocol := 0; unlocked := true |};
  call_token0 := fun a => Ok (a +:+ ":0");
  call_token1 := fun a => Ok (a +:+ ":1");
  call_decimals := fun t => Ok (dec t);
  call_convertToAssets := fun _ _ => Ok (10 ^ 18);
  call_vaultAPY := fun _ => Ok 0 |}.

(** the world [e] with the vault out of reach *)
Definition vault_down (e : env) : env := {|
  w3_gnosis := {|
    get_balance := get_balance (w3_gnosis e);
    call_slot0 := call_slot0 (w3_gnosis e);
    call_token0 := call_token0 (w3_gnosis e);
    call_token1 := call_token1 (w3_gnosis e);
    call_decimals := call_decimals (w3_gnosis e);
    call_convertToAssets := fun _ _ => Raise (Exception "execution reverted");
    call_vaultAPY := call_vaultAPY (w3_gnosis e) |};
  w3_mainnet := w3_mainnet e;
  to_checksum_address := to_checksum_address e;
  requests_get := requests_get e;
  gmtime := gmtime e |}.

(** the world [e] with another endpoint for the reference chain *)
Definition with_mainnet (w3 : web3) (e : env) : env := {|
  w3_gnosis := w3_gnosis e;
  w3_mainnet := w3;
  to_checksum_address := to_checksum_address e;
  requests_get := requests_get e;
  gmtime := gmtime e |}.

(** the world [e] with another endpoint for the primary chain *)
Definition with_gnosis (w3 : web3) (e : env) : env := {|
  w3_gnosis := w3;
  w3_mainnet := w3_mainnet e;
  to_checksum_address := to_checksum_address e;
  requests_get := requests_get e;
  gmtime := gmtime e |}.

(** ** The rate table in closed form *)

(** the four USD-quoted entries, as lines 151-154 store them *)
Definition base_table (usd : gmap string (option Q)) : gmap string (option Q) :=
  <["USD/GBP" := dict_get usd "GBP"]> (<["USD/EUR" := dict_get usd "EUR"]>
  (<["USD/CHF" := dict_get usd "CHF"]> (<["USD/BRL" := dict_get usd "BRL"]> ∅))).

(** [rates] with [k] set to [1 / rates[src]] where [rates.get(src)] is truthy *)
Definition with_reciprocal (k src : string) (rates : gmap string (option Q)) :
    gmap string (option Q) :=
  match dict_get rates src with
  | Some x => if truthy_num x then <[k := Some (1 / x)%Q]> rates else rates
  | None => rates
  end.

(** [rates] with [k] set to [rates[a] / rates[b]] where both are truthy *)
Definition with_ratio (k a b : string) (rates : gmap string (option Q)) :
    gmap string (option Q) :=
  match dict_get rates a, dict_get rates b with
  | Some x, Some y =>
      if truthy_num x && truthy_num y then <[k := Some (x / y)%Q]> rates else rates
  | _, _ => rates
  end.

Definition fx_table (usd : gmap string (option Q)) : gmap string (option Q) :=
  with_reciprocal "GBP/USD" "USD/GBP"
    (with_ratio "EUR/CHF" "USD/CHF" "USD/EUR"
       (with_reciprocal "BRL/USD" "USD/BRL" (base_table usd))).

(** the table by the outcome of the HTTP call *)
Definition fx_outcome (e : env) : gmap string (option Q) :=
  match requests_get e FX_URL with
  | Ok resp =>
      if status_code resp =? 200 then
        match json resp with
        | Ok (JsonObject r) => fx_table (default ∅ r)
        | Ok JsonOther => ∅
        | Raise _ => ∅
        end
      else ∅
  | Raise _ => ∅
  end.

(** * Properties *)

(** ** Numbers *)

Lemma Qltb_lt (x y : Q) : Qltb x y = true <-> (x < y)%Q.
Proof.
  unfold Qltb. rewrite negb_true_iff. split.
  - intros E. apply Qnot_le_lt. intros Hle. apply Qle_bool_iff in Hle. congruence.
  - intros Hlt. destruct (Qle_bool y x) eqn:E; [|reflexivity].
    apply Qle_bool_iff in E. exfalso. exact (Qlt_not_le _ _ Hlt E).
Qed.

Lemma Qltb_ge (x y : Q) : Qltb x y = false <-> (y <= x)%Q.
Proof.
  unfold Qltb. rewrite negb_false_iff. apply Qle_bool_iff.
Qed.

Lemma truthy_num_true (x : Q) : truthy_num x = true <-> ~ (x == 0)%Q.
Proof.
  unfold truthy_num. rewrite negb_true_iff. split.
  - intros E Hx. apply Qeq_bool_iff in Hx. congruence.
  - intros Hx. destruct (Qeq_bool x 0) eqn:E; [|reflexivity].
    apply Qeq_bool_iff in E. contradiction.
Qed.

Lemma truthy_num_false (x : Q) : truthy_num x = false <-> (x == 0)%Q.
Proof.
  unfold truthy_num. rewrite negb_false_iff. apply Qeq_bool_iff.
Qed.

Lemma py_div_ok (x y : Q) : ~ (y == 0)%Q -> py_div x y = Ok (x / y)%Q.
Proof.
  intros Hy. unfold py_div. apply truthy_num_true in Hy.
  unfold truthy_num in Hy. apply negb_true_iff in Hy. rewrite Hy. reflexivity.
Qed.

Lemma py_div_raises (x y : Q) :
  (y == 0)%Q -> py_div x y = Raise (ZeroDivisionError "division by zero").
Proof.
  intros Hy. unfold py_div. apply Qeq_bool_iff in Hy. rewrite Hy. reflexivity.
Qed.

(** Python's [10 ** n] on ints agrees with the power of the rationals,
    whatever the sign of the exponent. *)
Lemma py_int_pow_10 (n : Z) : exists p, py_int_pow 10 n = Ok p /\ (p == 10 ^ n)%Q.
Proof.
  unfold py_int_pow. destruct (0 <=? n) eqn:E.
  - eexists; split; [reflexivity|].
    apply Z.leb_le in E. rewrite Zpower_Qpower by assumption. reflexivity.
  - eexists; split; [reflexivity|].
    apply Z.leb_gt in E.
    rewrite Zpower_Qpower by lia.
    rewrite <- Qpower_opp. rewrite Z.opp_involutive. reflexivity.
Qed.

(** ** C1: the price decoder *)

Lemma get_pool_price_try_formula (e : env) (pool_address a t0 t1 : string)
    (s0 : slot0_t) (d0 d1 : Z) :
  to_checksum_address e pool_address = Ok a ->
  call_slot0 (w3_gnosis e) a = Ok s0 ->
  call_token0 (w3_gnosis e) a = Ok t0 ->
  call_token1 (w3_gnosis e) a = Ok t1 ->
  call_decimals (w3_gnosis e) t0 = Ok d0 ->
  call_decimals (w3_gnosis e) t1 = Ok d1 ->
  exists price, get_pool_price_try e pool_address = Ok price /\
    (price == normalized_price_spec (sqrtPriceX96 s0) d0 d1)%Q.
Proof.
  intros Ha Hs Ht0 Ht1 Hd0 Hd1.
  destruct (py_int_pow_10 (d0 - d1)) as (p & Hp & Hpow).
  unfold get_pool_price_try, mbind, exc_bind.
  rewrite Ha, Hs, Ht0, Ht1, Hd0, Hd1.
  rewrite py_div_ok by discriminate.
  rewrite Hp. eexists; split; [reflexivity|].
  unfold normalized_price_spec. rewrite Hpow.
  assert (Hw : (inject_Z (2 ^ 96) == 2 ^ 96)%Q) by reflexivity.
  rewrite Hw. reflexivity.
Qed.

(** C1.  When the five chain reads succeed, [get_pool_price] reports success
    with the price (raw / 2^96)^2 * 10^(decimals0 - decimals1); and a raw
    value of exactly 2^96 with equal decimals gives the price 1. *)
Theorem get_pool_price_decodes (e : env) (pool_address a t0 t1 : string)
    (s0 : slot0_t) (d0 d1 : Z) :
  to_checksum_address e pool_address = Ok a ->
  call_slot0 (w3_gnosis e) a = Ok s0 ->
  call_token0 (w3_gnosis e) a = Ok t0 ->
  call_token1 (w3_gnosis e) a = Ok t1 ->
  call_decimals (w3_gnosis e) t0 = Ok d0 ->
  call_decimals (w3_gnosis e) t1 = Ok d1 ->
  exists price, get_pool_price e pool_address = PriceOk price /\
    (price == normalized_price_spec (sqrtPriceX96 s0) d0 d1)%Q /\
    (sqrtPriceX96 s0 = 2 ^ 96 -> d0 = d1 -> (price == 1)%Q).
Proof.
  intros Ha Hs Ht0 Ht1 Hd0 Hd1.
  destruct (get_pool_price_try_formula e pool_address a t0 t1 s0 d0 d1)
    as (price & Hprice & Heq); try assumption.
  exists price. unfold get_pool_price. rewrite Hprice.
  split; [reflexivity|]. split; [exact Heq|].
  intros Hraw Hd. rewrite Heq. unfold normalized_price_spec.
  rewrite Hraw, Hd, Z.sub_diag. reflexivity.
Qed.

Lemma get_pool_price_decodes_witness :
  exists price,
    get_pool_price (env_sample (w3_sample (2 ^ 96) 18 18 (Ok (10 ^ 18)) "") http_sample)
      "0x576bf065cbc15cb2d61affb156118fcff01a8238" = PriceOk price /\
    (price == normalized_price_spec (2 ^ 96) 18 18)%Q /\
    (2 ^ 96 = 2 ^ 96 -> 18 = 18 -> (price == 1)%Q).
Proof.
  apply (get_pool_price_decodes
           (env_sample (w3_sample (2 ^ 96) 18 18 (Ok (10 ^ 18)) "") http_sample)
           "0x576bf065cbc15cb2d61affb156118fcff01a8238"
           "0x576bf065cbc15cb2d61affb156118fcff01a8238" "token0" "token1"
           {| sqrtPriceX96 := 2 ^ 96; tick := 0; observationIndex := 0;
              observationCardinality := 1; observationCardinalityNext := 1;
              feeProtocol := 0; unlocked := true |} 18 18); reflexivity.
Defined.

(** ** Formatting depends on the value only *)

#[global] Instance Qltb_comp : Proper (Qeq ==> Qeq ==> eq) Qltb.
Proof. intros x x' Hx y y' Hy. unfold Qltb. rewrite Hx, Hy. reflexivity. Qed.

#[global] Instance truthy_num_comp : Proper (Qeq ==> eq) truthy_num.
Proof. intros x x' Hx. unfold truthy_num. rewrite Hx. reflexivity. Qed.

#[global] Instance round_half_even_comp : Proper (Qeq ==> eq) round_half_even.
Proof.
  intros x y Hxy. unfold round_half_even.
  rewrite (Qfloor_comp x y Hxy).
  assert (Hr : (x - inject_Z (Qfloor y) == y - inject_Z (Qfloor y))%Q)
    by (rewrite Hxy; reflexivity).
  rewrite !Hr. reflexivity.
Qed.

#[global] Instance format_f_comp (plus : bool) (prec : nat) :
  Proper (Qeq ==> eq) (format_f plus prec).
Proof.
  intros x y Hxy. unfold format_f.
  assert (Hn : (Qabs x * inject_Z (10 ^ Z.of_nat prec) ==
                Qabs y * inject_Z (10 ^ Z.of_nat prec))%Q) by (rewrite Hxy; reflexivity).
  rewrite (round_half_even_comp _ _ Hn), (Qltb_comp x y Hxy 0%Q 0%Q (Qeq_refl 0)).
  reflexivity.
Qed.

(** ** The deviation column *)

Lemma deviation_ok (P B : Q) :
  ~ (B == 0)%Q -> deviation P (Some B) = Ok (deviation_pct_spec P B).
Proof.
  intros HB. unfold deviation, mbind, exc_bind, as_num.
  rewrite py_div_ok by assumption. reflexivity.
Qed.

Lemma deviation_raises (P B : Q) :
  (B == 0)%Q -> deviation P (Some B) = Raise (ZeroDivisionError "division by zero").
Proof.
  intros HB. unfold deviation, mbind, exc_bind, as_num.
  rewrite py_div_raises by assumption. reflexivity.
Qed.

Lemma dev_str_numeric (P B : Q) :
  ~ (B == 0)%Q -> (0 < P)%Q ->
  dev_str P (Some B) =
    Ok (dev_span (dev_class (deviation_pct_spec P B)) (deviation_pct_spec P B)).
Proof.
  intros HB HP. unfold dev_str, truthy.
  rewrite (proj2 (truthy_num_true B) HB), (proj2 (Qltb_lt 0 P) HP). simpl.
  unfold mbind, exc_bind. rewrite deviation_ok by assumption.
  reflexivity.
Qed.

Lemma dev_str_dash (P : Q) (fx_rate : option Q) :
  truthy fx_rate && Qltb 0 P = false -> dev_str P fx_rate = Ok "—".
Proof. intros E. unfold dev_str. rewrite E. reflexivity. Qed.

Lemma guard_false (P : Q) (fx_rate : option Q) :
  fx_rate = None \/ (exists B, fx_rate = Some B /\ (B == 0)%Q) \/ (P <= 0)%Q ->
  truthy fx_rate && Qltb 0 P = false.
Proof.
  intros [-> | [(B & -> & HB) | HP]].
  - reflexivity.
  - simpl. apply truthy_num_false in HB as ->. reflexivity.
  - apply Qltb_ge in HP as ->. apply andb_false_r.
Qed.

Lemma dev_str_total (P : Q) (fx_rate : option Q) :
  exists s, dev_str P fx_rate = Ok s.
Proof.
  destruct (truthy fx_rate && Qltb 0 P) eqn:E.
  - apply andb_true_iff in E as [Ht HP].
    destruct fx_rate as [B|]; [|discriminate].
    simpl in Ht. apply truthy_num_true in Ht. apply Qltb_lt in HP.
    eexists. apply dev_str_numeric; assumption.
  - eexists. apply dev_str_dash, E.
Qed.

Lemma pool_row_of_ok (p : pool) (price sdai_rate : Q)
    (fx_rates : gmap string (option Q)) (d : string) :
  dev_str (adjusted_price p price sdai_rate) (benchmark p fx_rates) = Ok d ->
  exists row, pool_row_of p (PriceOk price) fx_rates sdai_rate = Ok row /\
    row_dev row = d /\
    row_price row = format_f false 4 (adjusted_price p price sdai_rate) /\
    row_pair row = pair p /\ row_full_addr row = address p.
Proof.
  intros Hd. unfold pool_row_of, mbind, exc_bind. rewrite Hd.
  eexists. split; [reflexivity|]. simpl. auto.
Qed.

Lemma pool_row_of_total (p : pool) (data : price_result)
    (fx_rates : gmap string (option Q)) (sdai_rate : Q) :
  exists row, pool_row_of p data fx_rates sdai_rate = Ok row /\
    row_pair row = pair p /\ row_full_addr row = address p /\
    (forall err, data = PriceFail err ->
       row_price row = "ERR" /\ row_fx_rate row = "—" /\ row_dev row = "—").
Proof.
  destruct data as [price|err].
  - destruct (dev_str_total (adjusted_price p price sdai_rate) (benchmark p fx_rates))
      as (d & Hd).
    destruct (pool_row_of_ok p price sdai_rate fx_rates d Hd) as (row & Hrow & _ & _ & Hp & Ha).
    exists row. repeat split; try assumption; discriminate.
  - eexists. split; [reflexivity|]. simpl. auto.
Qed.

Lemma dev_class_positive (dev : Q) :
  dev_class dev = "positive" <-> (Qabs dev < 1 # 2)%Q.
Proof.
  unfold dev_class. destruct (Qltb (Qabs dev) (1 # 2)) eqn:E1.
  - apply Qltb_lt in E1. tauto.
  - apply Qltb_ge in E1. split.
    + destruct (Qltb 2 (Qabs dev)); discriminate.
    + intros Hlt. exfalso. exact (Qlt_not_le _ _ Hlt E1).
Qed.

Lemma dev_class_negative (dev : Q) :
  dev_class dev = "negative" <-> (2 < Qabs dev)%Q.
Proof.
  unfold dev_class. destruct (Qltb (Qabs dev) (1 # 2)) eqn:E1.
  - apply Qltb_lt in E1. split; [discriminate|].
    intros Hgt. exfalso. lra.
  - destruct (Qltb 2 (Qabs dev)) eqn:E2.
    + apply Qltb_lt in E2. tauto.
    + apply Qltb_ge in E2. split; [discriminate|].
      intros Hgt. exfalso. lra.
Qed.

Lemma dev_class_neutral (dev : Q) :
  dev_class dev = "neutral" <-> (1 # 2 <= Qabs dev)%Q /\ (Qabs dev <= 2)%Q.
Proof.
  unfold dev_class. destruct (Qltb (Qabs dev) (1 # 2)) eqn:E1.
  - apply Qltb_lt in E1. split; [discriminate|]. intros [Hge _]. exfalso. lra.
  - apply Qltb_ge in E1. destruct (Qltb 2 (Qabs dev)) eqn:E2.
    + apply Qltb_lt in E2. split; [discriminate|]. intros [_ Hle]. exfalso. lra.
    + apply Qltb_ge in E2. tauto.
Qed.

(** ** C2: the three classes *)

(** C2.  For a pool whose price was decoded, with (adjusted) price P > 0 and
    a benchmark B that is present and not zero, the deviation column is the
    span of the class of dev = (P - B) / B * 100, where the class is
    "positive" iff |dev| < 0.5, "negative" iff |dev| > 2 and "neutral"
    otherwise; |dev| = 0.5 and |dev| = 2 are both "neutral". *)
Theorem deviation_classes (p : pool) (price sdai_rate B : Q)
    (fx_rates : gmap string (option Q)) :
  let P := adjusted_price p price sdai_rate in
  let dev := deviation_pct_spec P B in
  (0 < P)%Q -> benchmark p fx_rates = Some B -> ~ (B == 0)%Q ->
  exists row, pool_row_of p (PriceOk price) fx_rates sdai_rate = Ok row /\
    row_dev row = dev_span (dev_class dev) dev /\
    (dev_class dev = "positive" <-> (Qabs dev < 1 # 2)%Q) /\
    (dev_class dev = "negative" <-> (2 < Qabs dev)%Q) /\
    (dev_class dev = "neutral" <-> ~ (Qabs dev < 1 # 2)%Q /\ ~ (2 < Qabs dev)%Q) /\
    ((Qabs dev == 1 # 2)%Q -> dev_class dev = "neutral") /\
    ((Qabs dev == 2)%Q -> dev_class dev = "neutral").
Proof.
  intros P dev HP HB HB0.
  destruct (pool_row_of_ok p price sdai_rate fx_rates (dev_span (dev_class dev) dev))
    as (row & Hrow & Hdev & _).
  { rewrite HB. apply dev_str_numeric; assumption. }
  exists row. split; [exact Hrow|]. split; [exact Hdev|].
  split; [apply dev_class_positive|]. split; [apply dev_class_negative|].
  split; [|split].
  - rewrite dev_class_neutral. split.
    + intros [H1 H2]. split; intros H'; lra.
    + intros [H1 H2]. split; [apply Qnot_lt_le, H1 | apply Qnot_lt_le, H2].
  - intros E. apply dev_class_neutral. rewrite E. split; discriminate.
  - intros E. apply dev_class_neutral. rewrite E. split; discriminate.
Qed.

Lemma deviation_classes_witness :
  exists row,
    pool_row_of {| address := "0x576bf065cbc15cb2d61affb156118fcff01a8238";
                   pair := "USDC.E/BRLA"; fx_pair := "USD/BRL"; sdai_adjust := None |}
      (PriceOk (1005 # 1000)) (<["USD/BRL" := Some 1%Q]> ∅) 1 = Ok row /\
    row_dev row = "<span class='neutral'>+0.50%</span>".
Proof.
  destruct (deviation_classes
              {| address := "0x576bf065cbc15cb2d61affb156118fcff01a8238";
                 pair := "USDC.E/BRLA"; fx_pair := "USD/BRL"; sdai_adjust := None |}
              (1005 # 1000) 1 1 (<["USD/BRL" := Some 1%Q]> ∅))
    as (row & Hrow & Hdev & _).
  - reflexivity.
  - reflexivity.
  - discriminate.
  - exists row. split; [exact Hrow|]. rewrite Hdev. vm_compute. reflexivity.
Defined.

(** ** C3: the deviation or the placeholder *)

(** C3.  For a pool whose price was decoded, with (adjusted) price P: when
    the benchmark B is present, not zero, and P > 0, the deviation column
    carries exactly (P - B) / B * 100; when the benchmark is absent or
    P <= 0, the column is the placeholder and carries no number. *)
Theorem deviation_or_placeholder (p : pool) (price sdai_rate : Q)
    (fx_rates : gmap string (option Q)) :
  let P := adjusted_price p price sdai_rate in
  exists row, pool_row_of p (PriceOk price) fx_rates sdai_rate = Ok row /\
    (forall B, benchmark p fx_rates = Some B -> ~ (B == 0)%Q -> (0 < P)%Q ->
       deviation P (Some B) = Ok (deviation_pct_spec P B) /\
       row_dev row =
         dev_span (dev_class (deviation_pct_spec P B)) (deviation_pct_spec P B)) /\
    (benchmark p fx_rates = None \/ (P <= 0)%Q -> row_dev row = "—").
Proof.
  intros P.
  destruct (dev_str_total P (benchmark p fx_rates)) as (d & Hd).
  destruct (pool_row_of_ok p price sdai_rate fx_rates d Hd) as (row & Hrow & Hdev & _).
  exists row. split; [exact Hrow|]. split.
  - intros B HB HB0 HP. split; [apply deviation_ok, HB0|].
    rewrite HB in Hd. fold P in Hd. rewrite dev_str_numeric in Hd by assumption.
    injection Hd as <-. exact Hdev.
  - intros Hno. fold P in Hd. rewrite dev_str_dash in Hd.
    + injection Hd as <-. exact Hdev.
    + apply guard_false. tauto.
Qed.

(** ** C10: no division by zero *)

Lemma pool_loop_rows (e : env) (fx_rates : gmap string (option Q)) (sdai_rate : Q)
    (pools : list pool) (rows : list pool_row) :
  exists rows', pool_loop e fx_rates sdai_rate pools rows = Ok (rows ++ rows')%list /\
    Forall2 (fun p row =>
      pool_row_of p (get_pool_price e (address p)) fx_rates sdai_rate = Ok row)
      pools rows'.
Proof.
  revert rows. induction pools as [|p rest IH]; intros rows.
  - exists []. split; [simpl; rewrite app_nil_r; reflexivity | constructor].
  - destruct (pool_row_of_total p (get_pool_price e (address p)) fx_rates sdai_rate)
      as (row & Hrow & _).
    destruct (IH (rows ++ [row])%list) as (rows' & Hloop & Hall).
    exists (row :: rows'). split.
    + simpl. unfold mbind, exc_bind. rewrite Hrow, Hloop.
      rewrite <- app_assoc. reflexivity.
    + constructor; assumption.
Qed.

Lemma get_fx_rates_returns (e : env) :
  exists rates, get_fx_rates e = Ok rates /\ rates = (get_fx_rates_try e ∅).2.
Proof.
  unfold get_fx_rates. destruct (get_fx_rates_try e ∅) as [[u|ex] rates]; eauto.
Qed.

Lemma fetch_pool_data_rows (e : env) (pools : list pool) :
  exists rows fx_rates,
    get_fx_rates e = Ok fx_rates /\
    fetch_pool_data e pools = Ok (rows, strftime (gmtime e)) /\
    Forall2 (fun p row =>
      pool_row_of p (get_pool_price e (address p)) fx_rates (get_sdai_rate e) = Ok row)
      pools rows.
Proof.
  destruct (get_fx_rates_returns e) as (fx_rates & Hfx & _).
  destruct (pool_loop_rows e fx_rates (get_sdai_rate e) pools []) as (rows & Hloop & Hall).
  exists rows, fx_rates. split; [exact Hfx|]. split; [|exact Hall].
  unfold fetch_pool_data, mbind, exc_bind. rewrite Hfx, Hloop. reflexivity.
Qed.

(** C10.  The deviation column never raises: the division is reached only
    under the guard "benchmark truthy and price > 0", although the division
    itself raises on a zero benchmark; an absent benchmark and a benchmark
    equal to zero both give the placeholder; hence a row is produced for
    every pool and every input, and the pool orchestrator returns. *)
Theorem deviation_never_divides_by_zero :
  (forall P B, (B == 0)%Q ->
     deviation P (Some B) = Raise (ZeroDivisionError "division by zero")) /\
  (forall P fx_rate, exists s, dev_str P fx_rate = Ok s) /\
  (forall P fx_rate s, dev_str P fx_rate = Ok s -> s <> "—" ->
     exists B, fx_rate = Some B /\ ~ (B == 0)%Q /\ (0 < P)%Q /\
       deviation P fx_rate = Ok (deviation_pct_spec P B)) /\
  (forall P fx_rate,
     fx_rate = None \/ (exists B, fx_rate = Some B /\ (B == 0)%Q) ->
     dev_str P fx_rate = Ok "—") /\
  (forall p data fx_rates sdai_rate,
     exists row, pool_row_of p data fx_rates sdai_rate = Ok row) /\
  (forall e pools, exists rows, fetch_pool_data e pools = Ok rows).
Proof.
  split; [exact deviation_raises|]. split; [exact dev_str_total|]. split; [|split; [|split]].
  - intros P fx_rate s Hs Hne.
    destruct (truthy fx_rate && Qltb 0 P) eqn:E.
    + apply andb_true_iff in E as [Ht HP]. destruct fx_rate as [B|]; [|discriminate].
      simpl in Ht. apply truthy_num_true in Ht. apply Qltb_lt in HP.
      exists B. repeat split; try assumption. apply deviation_ok, Ht.
    + rewrite dev_str_dash in Hs by assumption. congruence.
  - intros P fx_rate Hno. apply dev_str_dash, guard_false. tauto.
  - intros p data fx_rates sdai_rate.
    destruct (pool_row_of_total p data fx_rates sdai_rate) as (row & Hrow & _). eauto.
  - intros e pools. destruct (fetch_pool_data_rows e pools) as (rows & fx & _ & H & _). eauto.
Qed.

(** ** C7: one row per configured item *)

Lemma bot_loop_rows (e : env) (bots : list bot) (rows : list bot_row) :
  bot_loop e bots rows =
    (rows ++ map (fun b => bot_row_of b (get_bot_balance e (bot_address b) (bot_chain b))) bots)%list.
Proof.
  revert rows. induction bots as [|b rest IH]; intros rows; simpl.
  - rewrite app_nil_r. reflexivity.
  - rewrite IH, <- app_assoc. reflexivity.
Qed.

(** C7.  Whatever succeeds and whatever fails, each orchestrator returns one
    row per configured item, in the order of the configuration, with the
    timestamp of the batch; the row of an item is the row of that item's own
    fetch, and where the fetch failed its numeric fields are the error
    marker ("ERR", and the placeholder for the pool's rate and deviation). *)
Theorem orchestrators_one_row_per_item (e : env) (pools : list pool) (bots : list bot) :
  (exists rows fx_rates,
     get_fx_rates e = Ok fx_rates /\
     fetch_pool_data e pools = Ok (rows, strftime (gmtime e)) /\
     length rows = length pools /\
     Forall2 (fun p row =>
        pool_row_of p (get_pool_price e (address p)) fx_rates (get_sdai_rate e) = Ok row /\
        row_pair row = pair p /\ row_full_addr row = address p /\
        (forall err, get_pool_price e (address p) = PriceFail err ->
           row_price row = "ERR" /\ row_fx_rate row = "—" /\ row_dev row = "—") /\
        (forall price, get_pool_price e (address p) = PriceOk price ->
           row_price row =
             format_f false 4 (adjusted_price p price (get_sdai_rate e))))
       pools rows) /\
  (exists rows,
     fetch_bot_data e bots = (rows, strftime (gmtime e)) /\
     length rows = length bots /\
     Forall2 (fun b row =>
        row = bot_row_of b (get_bot_balance e (bot_address b) (bot_chain b)) /\
        row_name row = bot_name b /\ row_address row = bot_address b /\
        (forall err, get_bot_balance e (bot_address b) (bot_chain b) = BalanceFail err ->
           row_balance row = "ERR") /\
        (forall bal, get_bot_balance e (bot_address b) (bot_chain b) = BalanceOk bal ->
           row_balance row = format_f false 4 bal))
       bots rows).
Proof.
  split.
  - destruct (fetch_pool_data_rows e pools) as (rows & fx_rates & Hfx & Hfetch & Hall).
    exists rows, fx_rates. split; [exact Hfx|]. split; [exact Hfetch|].
    split; [symmetry; eapply Forall2_length; exact Hall|].
    eapply Forall2_impl; [exact Hall|].
    intros p row Hrow. cbv beta in Hrow |- *.
    destruct (pool_row_of_total p (get_pool_price e (address p)) fx_rates (get_sdai_rate e))
      as (row' & Hrow' & Hp & Ha & Herr).
    assert (row' = row) as -> by congruence.
    repeat split; try assumption.
    + apply Herr with err. assumption.
    + apply Herr with err. assumption.
    + apply Herr with err. assumption.
    + intros price Hprice. rewrite Hprice in Hrow.
      destruct (dev_str_total (adjusted_price p price (get_sdai_rate e)) (benchmark p fx_rates))
        as (d & Hd).
      destruct (pool_row_of_ok p price (get_sdai_rate e) fx_rates d Hd)
        as (row2 & Hrow2 & _ & Hpr & _).
      assert (row2 = row) as -> by congruence. exact Hpr.
  - exists (map (fun b => bot_row_of b (get_bot_balance e (bot_address b) (bot_chain b))) bots).
    split; [|split].
    + unfold fetch_bot_data. rewrite bot_loop_rows. reflexivity.
    + apply length_map.
    + induction bots as [|b rest IH]; simpl; constructor; [|exact IH].
      repeat split.
      * intros err ->. reflexivity.
      * intros bal ->. reflexivity.
Qed.

(** ** The rate table *)

Lemma reciprocal_block (k src : string) (rates : gmap string (option Q)) :
  (if truthy (dict_get rates src) then
     v ← rates_getitem src;
     x ← fx_lift (as_num v);
     q ← fx_lift (py_div 1 x);
     rates_set k (Some q)
   else mret tt) rates = (Ok tt, with_reciprocal k src rates).
Proof.
  unfold with_reciprocal, mbind, fx_bind, rates_getitem, fx_lift, rates_set, mret, fx_ret.
  unfold dict_get, dict_getitem.
  destruct (rates !! src) as [[x|]|] eqn:E; simpl; try reflexivity.
  unfold truthy_num, py_div. destruct (Qeq_bool x 0) eqn:E0; simpl; [reflexivity|].
  rewrite E. simpl. rewrite E0. reflexivity.
Qed.

Lemma ratio_block (k a b : string) (rates : gmap string (option Q)) :
  (if truthy (dict_get rates a) && truthy (dict_get rates b) then
     v ← rates_getitem a;
     w ← rates_getitem b;
     x ← fx_lift (as_num v);
     y ← fx_lift (as_num w);
     q ← fx_lift (py_div x y);
     rates_set k (Some q)
   else mret tt) rates = (Ok tt, with_ratio k a b rates).
Proof.
  unfold with_ratio, mbind, fx_bind, rates_getitem, fx_lift, rates_set, mret, fx_ret.
  unfold dict_get, dict_getitem.
  destruct (rates !! a) as [[x|]|] eqn:Ea; destruct (rates !! b) as [[y|]|] eqn:Eb; simpl;
    try reflexivity; try (destruct (truthy_num x); reflexivity).
  unfold truthy_num, py_div.
  destruct (Qeq_bool x 0) eqn:Ex; destruct (Qeq_bool y 0) eqn:Ey; simpl; try reflexivity.
  rewrite Ea, Eb. simpl. rewrite Ey. reflexivity.
Qed.

Lemma get_fx_rates_try_table (e : env) (resp : response) (r : option (gmap string (option Q))) :
  requests_get e FX_URL = Ok resp -> status_code resp = 200 ->
  json resp = Ok (JsonObject r) ->
  get_fx_rates_try e ∅ = (Ok tt, fx_table (default ∅ r)).
Proof.
  intros Hget Hstatus Hjson.
  pose proof (reciprocal_block "BRL/USD" "USD/BRL") as Hbrl.
  pose proof (ratio_block "EUR/CHF" "USD/CHF" "USD/EUR") as Hchf.
  pose proof (reciprocal_block "GBP/USD" "USD/GBP") as Hgbp.
  unfold get_fx_rates_try.
  unfold mbind, fx_bind, fx_lift, rates_set, rates_get in *.
  rewrite Hget, Hstatus. cbv beta iota delta [Z.eqb Pos.eqb]. rewrite Hjson.
  cbv beta iota delta [json_get_rates].
  rewrite Hbrl. cbv beta iota. rewrite Hchf. cbv beta iota. rewrite Hgbp.
  reflexivity.
Qed.

Lemma get_fx_rates_outcome (e : env) : get_fx_rates e = Ok (fx_outcome e).
Proof.
  unfold get_fx_rates, fx_outcome.
  destruct (requests_get e FX_URL) as [resp|ex] eqn:Hget.
  - destruct (status_code resp =? 200) eqn:Hstatus.
    + apply Z.eqb_eq in Hstatus.
      destruct (json resp) as [[r|]|ex] eqn:Hjson.
      * rewrite (get_fx_rates_try_table e resp r Hget Hstatus Hjson). reflexivity.
      * unfold get_fx_rates_try, mbind, fx_bind, fx_lift.
        rewrite Hget, Hstatus. cbv beta iota delta [Z.eqb Pos.eqb]. rewrite Hjson.
        reflexivity.
      * unfold get_fx_rates_try, mbind, fx_bind, fx_lift.
        rewrite Hget, Hstatus. cbv beta iota delta [Z.eqb Pos.eqb]. rewrite Hjson.
        reflexivity.
    + unfold get_fx_rates_try, mbind, fx_bind, fx_lift.
      rewrite Hget. cbv beta iota. rewrite Hstatus. reflexivity.
  - unfold get_fx_rates_try, mbind, fx_bind, fx_lift. rewrite Hget. reflexivity.
Qed.

Lemma with_reciprocal_lookup_ne (k src k' : string) (rates : gmap string (option Q)) :
  k <> k' -> with_reciprocal k src rates !! k' = rates !! k'.
Proof.
  intros Hne. unfold with_reciprocal.
  destruct (dict_get rates src) as [x|]; [|reflexivity].
  destruct (truthy_num x); [|reflexivity].
  apply lookup_insert_ne, Hne.
Qed.

Lemma with_ratio_lookup_ne (k a b k' : string) (rates : gmap string (option Q)) :
  k <> k' -> with_ratio k a b rates !! k' = rates !! k'.
Proof.
  intros Hne. unfold with_ratio.
  destruct (dict_get rates a) as [x|]; [|reflexivity].
  destruct (dict_get rates b) as [y|]; [|reflexivity].
  destruct (truthy_num x && truthy_num y); [|reflexivity].
  apply lookup_insert_ne, Hne.
Qed.

Lemma with_reciprocal_lookup (k src : string) (rates : gmap string (option Q)) :
  rates !! k = None ->
  with_reciprocal k src rates !! k =
    match dict_get rates src with
    | Some x => if truthy_num x then Some (Some (1 / x)%Q) else None
    | None => None
    end.
Proof.
  intros Hk. unfold with_reciprocal.
  destruct (dict_get rates src) as [x|]; [|exact Hk].
  destruct (truthy_num x); [apply lookup_insert_eq | exact Hk].
Qed.

Lemma with_ratio_lookup (k a b : string) (rates : gmap string (option Q)) :
  rates !! k = None ->
  with_ratio k a b rates !! k =
    match dict_get rates a, dict_get rates b with
    | Some x, Some y =>
        if truthy_num x && truthy_num y then Some (Some (x / y)%Q) else None
    | _, _ => None
    end.
Proof.
  intros Hk. unfold with_ratio.
  destruct (dict_get rates a) as [x|]; [|exact Hk].
  destruct (dict_get rates b) as [y|]; [|exact Hk].
  destruct (truthy_num x && truthy_num y); [apply lookup_insert_eq | exact Hk].
Qed.

(** the USD-quoted entries of the table are what the service sent *)
Lemma fx_table_base (usd : gmap string (option Q)) :
  dict_get (fx_table usd) "USD/BRL" = dict_get usd "BRL" /\
  dict_get (fx_table usd) "USD/CHF" = dict_get usd "CHF" /\
  dict_get (fx_table usd) "USD/EUR" = dict_get usd "EUR" /\
  dict_get (fx_table usd) "USD/GBP" = dict_get usd "GBP".
Proof.
  unfold fx_table.
  repeat split; unfold dict_get at 1;
    rewrite with_reciprocal_lookup_ne, with_ratio_lookup_ne, with_reciprocal_lookup_ne
      by discriminate;
    unfold base_table; rewrite ?lookup_insert_ne by discriminate;
    rewrite lookup_insert_eq; reflexivity.
Qed.

Lemma fx_table_brl_usd (usd : gmap string (option Q)) :
  fx_table usd !! "BRL/USD" =
    match dict_get usd "BRL" with
    | Some x => if truthy_num x then Some (Some (1 / x)%Q) else None
    | None => None
    end.
Proof.
  unfold fx_table.
  rewrite with_reciprocal_lookup_ne, with_ratio_lookup_ne by discriminate.
  rewrite with_reciprocal_lookup by reflexivity.
  unfold dict_get at 1, base_table. rewrite !lookup_insert_ne by discriminate.
  rewrite lookup_insert_eq. reflexivity.
Qed.

Lemma fx_table_eur_chf (usd : gmap string (option Q)) :
  fx_table usd !! "EUR/CHF" =
    match dict_get usd "CHF", dict_get usd "EUR" with
    | Some x, Some y =>
        if truthy_num x && truthy_num y then Some (Some (x / y)%Q) else None
    | _, _ => None
    end.
Proof.
  unfold fx_table.
  rewrite with_reciprocal_lookup_ne by discriminate.
  rewrite with_ratio_lookup.
  - unfold dict_get at 1 2. rewrite !with_reciprocal_lookup_ne by discriminate.
    unfold base_table. rewrite !lookup_insert_ne by discriminate.
    rewrite lookup_insert_eq. rewrite !lookup_insert_ne by discriminate.
    rewrite lookup_insert_eq. reflexivity.
  - rewrite with_reciprocal_lookup_ne by discriminate. reflexivity.
Qed.

Lemma fx_table_gbp_usd (usd : gmap string (option Q)) :
  fx_table usd !! "GBP/USD" =
    match dict_get usd "GBP" with
    | Some x => if truthy_num x then Some (Some (1 / x)%Q) else None
    | None => None
    end.
Proof.
  unfold fx_table.
  rewrite with_reciprocal_lookup.
  - unfold dict_get at 1.
    rewrite with_ratio_lookup_ne, with_reciprocal_lookup_ne by discriminate.
    unfold base_table. rewrite lookup_insert_eq. reflexivity.
  - rewrite with_ratio_lookup_ne, with_reciprocal_lookup_ne by discriminate. reflexivity.
Qed.

(** ** C4: reciprocal and ratio *)

(** C4.  After a successful fetch (status 200, a JSON object with a "rates"
    table [usd]): for a rate r of BRL or of GBP that is not zero, the table
    holds BRL/USD = 1/r, respectively GBP/USD = 1/r, and the product of the
    derived rate with r is 1; with rates of CHF and of EUR that are not
    zero, EUR/CHF = (USD/CHF) / (USD/EUR).  From BRL=5.0, EUR=0.9, CHF=0.95,
    GBP=0.8: EUR/CHF = 0.95/0.9, GBP/USD = 1.25, BRL/USD = 0.2. *)
Theorem fx_cross_rates (e : env) (resp : response) (usd : gmap string (option Q)) :
  requests_get e FX_URL = Ok resp -> status_code resp = 200 ->
  json resp = Ok (JsonObject (Some usd)) ->
  exists rates, get_fx_rates e = Ok rates /\
    (forall r, dict_get usd "BRL" = Some r -> ~ (r == 0)%Q ->
       dict_get rates "USD/BRL" = Some r /\
       rates !! "BRL/USD" = Some (Some (1 / r)%Q) /\ (1 / r * r == 1)%Q) /\
    (forall r, dict_get usd "GBP" = Some r -> ~ (r == 0)%Q ->
       dict_get rates "USD/GBP" = Some r /\
       rates !! "GBP/USD" = Some (Some (1 / r)%Q) /\ (1 / r * r == 1)%Q) /\
    (forall c u, dict_get usd "CHF" = Some c -> dict_get usd "EUR" = Some u ->
       ~ (c == 0)%Q -> ~ (u == 0)%Q ->
       rates !! "EUR/CHF" = Some (Some (c / u)%Q)) /\
    (usd = usd_sample ->
       exists ec gu bu,
         rates !! "EUR/CHF" = Some (Some ec) /\ (ec == (95 # 100) / (9 # 10))%Q /\
         rates !! "GBP/USD" = Some (Some gu) /\ (gu == 125 # 100)%Q /\
         rates !! "BRL/USD" = Some (Some bu) /\ (bu == 2 # 10)%Q).
Proof.
  intros Hget Hstatus Hjson.
  exists (fx_table usd). split.
  { rewrite get_fx_rates_outcome. unfold fx_outcome.
    rewrite Hget, Hstatus. cbv beta iota delta [Z.eqb Pos.eqb]. rewrite Hjson.
    reflexivity. }
  destruct (fx_table_base usd) as (Hbrl & Hchf & Heur & Hgbp).
  split; [|split; [|split]].
  - intros r Hr Hr0. split; [congruence|]. split.
    + rewrite fx_table_brl_usd, Hr, (proj2 (truthy_num_true r) Hr0). reflexivity.
    + field. exact Hr0.
  - intros r Hr Hr0. split; [congruence|]. split.
    + rewrite fx_table_gbp_usd, Hr, (proj2 (truthy_num_true r) Hr0). reflexivity.
    + field. exact Hr0.
  - intros c u Hc Hu Hc0 Hu0.
    rewrite fx_table_eur_chf, Hc, Hu.
    rewrite (proj2 (truthy_num_true c) Hc0), (proj2 (truthy_num_true u) Hu0).
    reflexivity.
  - intros ->.
    exists ((95 # 100) / (9 # 10))%Q, (1 / (8 # 10))%Q, (1 / 5)%Q.
    rewrite fx_table_eur_chf, fx_table_gbp_usd, fx_table_brl_usd.
    repeat split.
Qed.

Lemma fx_cross_rates_witness :
  exists rates,
    get_fx_rates (env_sample w3_down http_sample) = Ok rates /\
    rates !! "BRL/USD" = Some (Some (1 / 5)%Q) /\
    rates !! "GBP/USD" = Some (Some (1 / (8 # 10))%Q) /\
    rates !! "EUR/CHF" = Some (Some ((95 # 100) / (9 # 10))%Q).
Proof.
  destruct (fx_cross_rates (env_sample w3_down http_sample)
              {| status_code := 200; json := Ok (JsonObject (Some usd_sample)) |}
              usd_sample)
    as (rates & Hrates & Hbrl & Hgbp & Hchf & _).
  - reflexivity.
  - reflexivity.
  - reflexivity.
  - exists rates. split; [exact Hrates|]. split; [|split].
    + apply (Hbrl 5%Q); [reflexivity | discriminate].
    + apply (Hgbp (8 # 10)%Q); [reflexivity | discriminate].
    + apply (Hchf (95 # 100)%Q (9 # 10)%Q); [reflexivity | reflexivity | discriminate | discriminate].
Defined.

(** ** C5: no derived rate without its base rates *)

(** C5.  In every table the aggregator returns, BRL/USD is absent when
    USD/BRL is absent, GBP/USD is absent when USD/GBP is absent, and EUR/CHF
    is absent when USD/CHF or USD/EUR is absent; a derived rate that is
    present is the reciprocal, or the ratio, of base rates that are present
    and not zero. *)
Theorem derived_rates_need_their_bases (e : env) :
  exists rates, get_fx_rates e = Ok rates /\
    (dict_get rates "USD/BRL" = None -> rates !! "BRL/USD" = None) /\
    (dict_get rates "USD/GBP" = None -> rates !! "GBP/USD" = None) /\
    (dict_get rates "USD/CHF" = None \/ dict_get rates "USD/EUR" = None ->
       rates !! "EUR/CHF" = None) /\
    (forall v, rates !! "BRL/USD" = Some v ->
       exists r, dict_get rates "USD/BRL" = Some r /\ ~ (r == 0)%Q /\ v = Some (1 / r)%Q) /\
    (forall v, rates !! "GBP/USD" = Some v ->
       exists r, dict_get rates "USD/GBP" = Some r /\ ~ (r == 0)%Q /\ v = Some (1 / r)%Q) /\
    (forall v, rates !! "EUR/CHF" = Some v ->
       exists c u, dict_get rates "USD/CHF" = Some c /\ dict_get rates "USD/EUR" = Some u /\
         ~ (c == 0)%Q /\ ~ (u == 0)%Q /\ v = Some (c / u)%Q).
Proof.
  exists (fx_outcome e). split; [apply get_fx_rates_outcome|].
  assert (Hempty : forall P : gmap string (option Q) -> Prop,
            P ∅ -> (forall usd, P (fx_table usd)) -> P (fx_outcome e)).
  { intros P H0 Ht. unfold fx_outcome.
    destruct (requests_get e FX_URL) as [resp|ex]; [|exact H0].
    destruct (status_code resp =? 200); [|exact H0].
    destruct (json resp) as [[r|]|ex]; [apply Ht | exact H0 | exact H0]. }
  apply Hempty; clear Hempty.
  - repeat split; intros; try apply lookup_empty;
      match goal with H : _ !! _ = Some _ |- _ =>
        rewrite lookup_empty in H; discriminate end.
  - intros usd. destruct (fx_table_base usd) as (-> & -> & -> & ->).
    rewrite fx_table_brl_usd, fx_table_gbp_usd, fx_table_eur_chf.
    repeat split.
    + intros ->. reflexivity.
    + intros ->. reflexivity.
    + intros [-> | ->]; [reflexivity|]. destruct (dict_get usd "CHF"); reflexivity.
    + intros v. destruct (dict_get usd "BRL") as [r|]; [|discriminate].
      destruct (truthy_num r) eqn:E; [|discriminate].
      intros [= <-]. exists r. apply truthy_num_true in E. auto.
    + intros v. destruct (dict_get usd "GBP") as [r|]; [|discriminate].
      destruct (truthy_num r) eqn:E; [|discriminate].
      intros [= <-]. exists r. apply truthy_num_true in E. auto.
    + intros v. destruct (dict_get usd "CHF") as [c|]; [|discriminate].
      destruct (dict_get usd "EUR") as [u|]; [|discriminate].
      destruct (truthy_num c) eqn:Ec; [|discriminate].
      destruct (truthy_num u) eqn:Eu; [|discriminate].
      intros [= <-]. exists c, u.
      apply truthy_num_true in Ec. apply truthy_num_true in Eu. auto 6.
Qed.

(** ** C8: the aggregator does not raise *)

(** C8.  [get_fx_rates] never raises: it returns the table as the [try]
    left it.  When the HTTP call raises, when the status is not 200, and
    when the body is not a JSON object, that table is empty, so every entry
    is absent; after a successful fetch a USD-quoted entry is what the
    service sent, absent where the service sent none, never a zero put in
    its place. *)
Theorem fx_failure_returns_partial_table (e : env) :
  exists rates, get_fx_rates e = Ok rates /\
    rates = (get_fx_rates_try e ∅).2 /\
    ((exists ex, requests_get e FX_URL = Raise ex) \/
     (exists resp, requests_get e FX_URL = Ok resp /\ status_code resp <> 200) \/
     (exists resp, requests_get e FX_URL = Ok resp /\
        (json resp = Ok JsonOther \/ exists ex, json resp = Raise ex)) ->
     rates = ∅ /\ forall k, dict_get rates k = None) /\
    (forall resp r, requests_get e FX_URL = Ok resp -> status_code resp = 200 ->
       json resp = Ok (JsonObject r) ->
       dict_get rates "USD/BRL" = dict_get (default ∅ r) "BRL" /\
       dict_get rates "USD/CHF" = dict_get (default ∅ r) "CHF" /\
       dict_get rates "USD/EUR" = dict_get (default ∅ r) "EUR" /\
       dict_get rates "USD/GBP" = dict_get (default ∅ r) "GBP").
Proof.
  destruct (get_fx_rates_returns e) as (rates & Hrates & Htry).
  exists rates. split; [exact Hrates|]. split; [exact Htry|].
  assert (Hout : rates = fx_outcome e).
  { rewrite get_fx_rates_outcome in Hrates. congruence. }
  split.
  - intros Hfail. assert (rates = ∅) as ->.
    { rewrite Hout. unfold fx_outcome.
      destruct Hfail as [(ex & ->) | [(resp & -> & Hs) | (resp & -> & Hj)]].
      - reflexivity.
      - apply Z.eqb_neq in Hs. rewrite Hs. reflexivity.
      - destruct (status_code resp =? 200); [|reflexivity].
        destruct Hj as [-> | (ex & ->)]; reflexivity. }
    split; [reflexivity|]. intros k. unfold dict_get. rewrite lookup_empty. reflexivity.
  - intros resp r Hget Hstatus Hjson. rewrite Hout. unfold fx_outcome.
    rewrite Hget, Hstatus. cbv beta iota delta [Z.eqb Pos.eqb]. rewrite Hjson.
    apply fx_table_base.
Qed.

(** ** C6: the yield adjustment *)

Lemma get_sdai_rate_ok (e : env) (a : string) (assets : Z) :
  to_checksum_address e SDAI_ADDRESS = Ok a ->
  call_convertToAssets (w3_gnosis e) a (10 ^ 18) = Ok assets ->
  get_sdai_rate e = (inject_Z assets / inject_Z (10 ^ 18))%Q.
Proof.
  intros Ha Hc. unfold get_sdai_rate, get_sdai_rate_try, mbind, exc_bind.
  rewrite Ha, Hc. rewrite py_div_ok by discriminate. reflexivity.
Qed.

Lemma get_sdai_rate_default (e : env) (ex : exn) :
  get_sdai_rate_try e = Raise ex -> get_sdai_rate e = 1%Q.
Proof. intros Hr. unfold get_sdai_rate. rewrite Hr. reflexivity. Qed.

Lemma adjusted_price_flagged (p : pool) (price sdai_rate : Q) :
  sdai_adjust p = Some true -> adjusted_price p price sdai_rate = (price * sdai_rate)%Q.
Proof. intros Hp. unfold adjusted_price. rewrite Hp. reflexivity. Qed.

(** C6.  For a pool flagged [sdai_adjust], the decoded price is multiplied
    by the vault's ratio, which is assets / 10^18 when the vault call
    succeeds (1.20 with ratio 1.05 gives 1.26); when the vault call fails
    the ratio is 1, the row carries the unadjusted price, and the
    orchestrator still returns its rows. *)
Theorem yield_adjustment (e : env) (p : pool) (price : Q)
    (fx_rates : gmap string (option Q)) :
  sdai_adjust p = Some true ->
  adjusted_price p price (get_sdai_rate e) = (price * get_sdai_rate e)%Q /\
  (exists row, pool_row_of p (PriceOk price) fx_rates (get_sdai_rate e) = Ok row /\
     row_price row = format_f false 4 (price * get_sdai_rate e)) /\
  (forall a assets, to_checksum_address e SDAI_ADDRESS = Ok a ->
     call_convertToAssets (w3_gnosis e) a (10 ^ 18) = Ok assets ->
     get_sdai_rate e = (inject_Z assets / inject_Z (10 ^ 18))%Q) /\
  ((price == 120 # 100)%Q -> (get_sdai_rate e == 105 # 100)%Q ->
     (adjusted_price p price (get_sdai_rate e) == 126 # 100)%Q) /\
  (forall ex, get_sdai_rate_try e = Raise ex ->
     get_sdai_rate e = 1%Q /\
     (adjusted_price p price (get_sdai_rate e) == price)%Q /\
     (exists row, pool_row_of p (PriceOk price) fx_rates (get_sdai_rate e) = Ok row /\
        row_price row = format_f false 4 price) /\
     forall pools, exists rows, fetch_pool_data e pools = Ok (rows, strftime (gmtime e))) /\
  (forall a ex, to_checksum_address e SDAI_ADDRESS = Ok a ->
     call_convertToAssets (w3_gnosis e) a (10 ^ 18) = Raise ex ->
     get_sdai_rate_try e = Raise ex).
Proof.
  intros Hp.
  pose proof (adjusted_price_flagged p price (get_sdai_rate e) Hp) as Hadj.
  assert (Hrow : exists row,
            pool_row_of p (PriceOk price) fx_rates (get_sdai_rate e) = Ok row /\
            row_price row = format_f false 4 (price * get_sdai_rate e)).
  { destruct (dev_str_total (adjusted_price p price (get_sdai_rate e)) (benchmark p fx_rates))
      as (d & Hd).
    destruct (pool_row_of_ok p price (get_sdai_rate e) fx_rates d Hd)
      as (row & Hr & _ & Hpr & _).
    exists row. split; [exact Hr|]. rewrite Hpr, Hadj. reflexivity. }
  split; [exact Hadj|]. split; [exact Hrow|]. split; [apply get_sdai_rate_ok|].
  split; [|split].
  - intros Hprice Hrate. rewrite Hadj, Hprice, Hrate. reflexivity.
  - intros ex Hex. pose proof (get_sdai_rate_default e ex Hex) as H1.
    split; [exact H1|]. split; [|split].
    + rewrite Hadj, H1. apply Qmult_1_r.
    + destruct Hrow as (row & Hr & Hpr). exists row. split; [exact Hr|].
      rewrite Hpr, H1. apply format_f_comp, Qmult_1_r.
    + intros pools. destruct (fetch_pool_data_rows e pools) as (rows & fx & _ & Hf & _).
      eauto.
  - intros a ex Ha Hc. unfold get_sdai_rate_try, mbind, exc_bind. rewrite Ha, Hc.
    reflexivity.
Qed.

Lemma yield_adjustment_witness :
  exists row,
    pool_row_of {| address := "0x22eb73322b6334ccf07fc2f9f22690a012d22797";
                   pair := "GBPE/SDAI"; fx_pair := "GBP/USD"; sdai_adjust := Some true |}
      (PriceOk (120 # 100)) ∅
      (get_sdai_rate (env_sample (w3_sample (2 ^ 96) 18 18 (Ok (105 * 10 ^ 16)) "") http_sample))
      = Ok row /\
    row_price row = "1.2600".
Proof.
  destruct (yield_adjustment
              (env_sample (w3_sample (2 ^ 96) 18 18 (Ok (105 * 10 ^ 16)) "") http_sample)
              {| address := "0x22eb73322b6334ccf07fc2f9f22690a012d22797";
                 pair := "GBPE/SDAI"; fx_pair := "GBP/USD"; sdai_adjust := Some true |}
              (120 # 100) ∅ eq_refl)
    as (_ & (row & Hrow & Hprice) & _).
  exists row. split; [exact Hrow|]. rewrite Hprice. vm_compute. reflexivity.
Defined.

(** ** C9: the TTL cache *)

Section cache_properties.
Context {K V : Type} `{Countable K}.
Variable ttl : Z.
Variable fetch : K -> Z -> V.

Local Abbreviation state := (@Cache.state K V _ _).
Local Abbreviation entry := (@Cache.entry V).

Lemma call_hit (args : K) (now : Z) (s : state) (en : entry) :
  Cache.live ttl args now s = Some en ->
  Cache.call ttl fetch args now s = (Cache.stored en, s).
Proof. intros Hl. unfold Cache.call. rewrite Hl. reflexivity. Qed.

Lemma call_miss (args : K) (now : Z) (s : state) :
  Cache.live ttl args now s = None ->
  Cache.call ttl fetch args now s =
    (fetch args now,
     {| Cache.entries :=
          <[args := {| Cache.stored := fetch args now; Cache.created := now |}]>
            (Cache.entries s);
        Cache.invoked := (Cache.invoked s ++ [(args, now)])%list |}).
Proof. intros Hl. unfold Cache.call. rewrite Hl. reflexivity. Qed.

Lemma live_young (args : K) (now : Z) (s : state) (en : entry) :
  Cache.entries s !! args = Some en -> now - Cache.created en < ttl ->
  Cache.live ttl args now s = Some en.
Proof.
  intros He Hage. unfold Cache.live. rewrite He.
  rewrite bool_decide_eq_true_2 by assumption. reflexivity.
Qed.

Lemma live_old (args : K) (now : Z) (s : state) (en : entry) :
  Cache.entries s !! args = Some en -> ttl <= now - Cache.created en ->
  Cache.live ttl args now s = None.
Proof.
  intros He Hage. unfold Cache.live. rewrite He.
  rewrite bool_decide_eq_false_2 by lia. reflexivity.
Qed.

Lemma live_served (args : K) (now : Z) (s : state) (en : entry) :
  Cache.live ttl args now s = Some en ->
  Cache.entries s !! args = Some en /\ now - Cache.created en < ttl.
Proof.
  unfold Cache.live. destruct (Cache.entries s !! args) as [en'|]; [|discriminate].
  destruct (bool_decide (now - Cache.created en' < ttl)) eqn:E; [|discriminate].
  intros [= <-]. apply bool_decide_eq_true in E. auto.
Qed.

Lemma invocations_app (args : K) (s : state) (c : K * Z) :
  c.1 <> args ->
  length (filter (fun c => c.1 = args) (Cache.invoked s ++ [c])%list) =
    Cache.invocations args s.
Proof.
  intros Hne. unfold Cache.invocations. rewrite filter_app, length_app.
  rewrite filter_cons_False by assumption. rewrite filter_nil. simpl. lia.
Qed.

(** While the entry of [args] is young, calls with any arguments leave it
    in place, do not invoke the function for [args], and answer a call for
    [args] with the stored value. *)
Lemma run_within_window (args : K) (en : entry) (cs : list (K * Z)) :
  forall s : state,
  Cache.entries s !! args = Some en ->
  Forall (fun c : K * Z => c.2 - Cache.created en < ttl) cs ->
  Cache.entries (Cache.run ttl fetch cs s).2 !! args = Some en /\
  Cache.invocations args (Cache.run ttl fetch cs s).2 = Cache.invocations args s /\
  forall i c, cs !! i = Some c -> c.1 = args ->
    (Cache.run ttl fetch cs s).1 !! i = Some (Cache.stored en).
Proof.
  induction cs as [|[k t] rest IH]; intros s He Hall.
  - simpl. repeat split; [assumption|]. intros i c Hc. rewrite lookup_nil in Hc. discriminate.
  - apply Forall_cons in Hall as [Ht Hrest]. simpl in Ht.
    assert (Hstep : Cache.entries (Cache.call ttl fetch k t s).2 !! args = Some en /\
              Cache.invocations args (Cache.call ttl fetch k t s).2 =
                Cache.invocations args s /\
              (k = args -> (Cache.call ttl fetch k t s).1 = Cache.stored en)).
    { destruct (decide (k = args)) as [->|Hne].
      - rewrite (call_hit args t s en) by (apply live_young; assumption).
        simpl. auto.
      - destruct (Cache.live ttl k t s) as [en'|] eqn:El.
        + rewrite (call_hit k t s en' El). simpl. repeat split; [assumption|]. contradiction.
        + rewrite (call_miss k t s El). simpl. split; [|split].
          * rewrite lookup_insert_ne by assumption. exact He.
          * apply (invocations_app args s (k, t)). exact Hne.
          * contradiction. }
    destruct Hstep as (He1 & Hinv1 & Hv1).
    simpl. destruct (Cache.call ttl fetch k t s) as [v s1] eqn:Ecall. simpl in *.
    specialize (IH s1 He1 Hrest). destruct (Cache.run ttl fetch rest s1) as [vs s2].
    simpl in *. destruct IH as (He2 & Hinv2 & Hvs).
    split; [exact He2|]. split; [congruence|].
    intros [|i] c Hc Hk; simpl in *.
    + injection Hc as <-. simpl in Hk. rewrite (Hv1 Hk). reflexivity.
    + eapply Hvs; eassumption.
Qed.

(** C9.  A first call of a cached function for [args] at [t1] that finds
    no entry it may serve invokes the function once.  A second call within
    the TTL window returns the stored value, whatever it is, and invokes
    nothing; so do all calls for [args] in any sequence of calls that stay
    in the window.  A call at or after [t1 + ttl] invokes the function
    again and replaces the entry.  In any state, a call that is served
    from the cache serves an entry younger than the TTL, and an entry
    whose age has reached the TTL is not served. *)
Theorem cache_ttl_window (args : K) (t1 : Z) (s : state) :
  Cache.live ttl args t1 s = None ->
  let r1 := Cache.call ttl fetch args t1 s in
  r1.1 = fetch args t1 /\
  Cache.invoked r1.2 = (Cache.invoked s ++ [(args, t1)])%list /\
  Cache.invocations args r1.2 = S (Cache.invocations args s) /\
  (forall t2, t1 <= t2 < t1 + ttl ->
     Cache.call ttl fetch args t2 r1.2 = (r1.1, r1.2)) /\
  (forall cs, Forall (fun c : K * Z => t1 <= c.2 < t1 + ttl) cs ->
     Cache.invocations args (Cache.run ttl fetch cs r1.2).2 =
       S (Cache.invocations args s) /\
     forall i c, cs !! i = Some c -> c.1 = args ->
       (Cache.run ttl fetch cs r1.2).1 !! i = Some r1.1) /\
  (forall t2, t1 + ttl <= t2 ->
     let r2 := Cache.call ttl fetch args t2 r1.2 in
     r2.1 = fetch args t2 /\
     Cache.invoked r2.2 = (Cache.invoked r1.2 ++ [(args, t2)])%list /\
     Cache.entries r2.2 !! args =
       Some {| Cache.stored := fetch args t2; Cache.created := t2 |}) /\
  (forall now (s' : state) en, Cache.live ttl args now s' = Some en ->
     now - Cache.created en < ttl) /\
  (forall now (s' : state) en, Cache.entries s' !! args = Some en ->
     ttl <= now - Cache.created en ->
     Cache.call ttl fetch args now s' =
       (fetch args now,
        {| Cache.entries :=
             <[args := {| Cache.stored := fetch args now; Cache.created := now |}]>
               (Cache.entries s');
           Cache.invoked := (Cache.invoked s' ++ [(args, now)])%list |})).
Proof.
  intros Hmiss r1. subst r1. rewrite (call_miss args t1 s Hmiss). simpl.
  set (en := {| Cache.stored := fetch args t1; Cache.created := t1 |}).
  set (s1 := {| Cache.entries := <[args := en]> (Cache.entries s);
                Cache.invoked := (Cache.invoked s ++ [(args, t1)])%list |}).
  assert (He : Cache.entries s1 !! args = Some en) by apply lookup_insert_eq.
  assert (Hinv : Cache.invocations args s1 = S (Cache.invocations args s)).
  { unfold Cache.invocations, s1. simpl. rewrite filter_app, length_app.
    rewrite filter_cons_True by reflexivity. rewrite filter_nil. simpl. lia. }
  split; [reflexivity|]. split; [reflexivity|]. split; [exact Hinv|].
  split; [|split; [|split; [|split]]].
  - intros t2 Ht2. apply (call_hit args t2 s1 en). apply live_young; [exact He|].
    simpl. lia.
  - intros cs Hcs.
    destruct (run_within_window args en cs s1 He) as (_ & Hn & Hvs).
    { eapply Forall_impl; [exact Hcs|]. intros c Hc. simpl in *. lia. }
    split; [congruence|]. exact Hvs.
  - intros t2 Ht2.
    rewrite (call_miss args t2 s1) by (eapply live_old; [exact He | simpl; lia]).
    simpl. repeat split. apply lookup_insert_eq.
  - intros now s' en' Hl. apply (live_served args now s' en' Hl).
  - intros now s' en' He' Hage. apply call_miss. eapply live_old; eassumption.
Qed.
End cache_properties.

(** a failed price read is cached like any other value: within the window
    the cached [get_pool_price] repeats it, even when the endpoint is back *)
Lemma get_pool_price_cached_failure (world : Z -> env) (pool_address : string)
    (t1 t2 : Z) (s : @Cache.state string price_result _ _) (err : string) :
  Cache.live 60 pool_address t1 s = None ->
  get_pool_price (world t1) pool_address = PriceFail err ->
  t1 <= t2 < t1 + 60 ->
  (get_pool_price_cached world pool_address t2
     (get_pool_price_cached world pool_address t1 s).2).1 = PriceFail err.
Proof.
  intros Hmiss Hfail Ht. unfold get_pool_price_cached.
  rewrite (call_miss 60 _ pool_address t1 s Hmiss). simpl.
  set (en := {| Cache.stored := get_pool_price (world t1) pool_address;
                Cache.created := t1 |}).
  rewrite (call_hit 60 _ pool_address t2 _ en).
  - exact Hfail.
  - apply live_young; [apply lookup_insert_eq | simpl; lia].
Qed.

Lemma cache_ttl_window_witness :
  get_sdai_rate_cached (fun _ => env_sample w3_down http_sample) tt 59
    (get_sdai_rate_cached (fun _ => env_sample w3_down http_sample) tt 0
       (Cache.Build_state (K:=unit) (V:=Q) ∅ [])).2 =
  get_sdai_rate_cached (fun _ => env_sample w3_down http_sample) tt 0
    (Cache.Build_state (K:=unit) (V:=Q) ∅ []).
Proof.
  unfold get_sdai_rate_cached.
  pose proof (cache_ttl_window 60
                (fun (_ : unit) now => get_sdai_rate (env_sample w3_down http_sample))
                tt 0 (Cache.Build_state (K:=unit) (V:=Q) ∅ []) eq_refl)
    as (_ & _ & _ & Hsecond & _).
  rewrite (Hsecond 59) by lia.
  destruct (Cache.call 60 _ tt 0 _). reflexivity.
Defined.

(** ** Worked examples *)

Example format_f_pads : format_f false 4 (505 # 100) = "5.0500".
Proof. vm_compute. reflexivity. Qed.

Example format_f_keeps_sign : format_f true 2 (- (1 # 1000)) = "-0.00".
Proof. vm_compute. reflexivity. Qed.

Example format_f_half_even : format_f false 0 (5 # 2) = "2" /\ format_f false 0 (7 # 2) = "4".
Proof. split; vm_compute; reflexivity. Qed.

Example short_addr_pool :
  short_addr "0x576bf065cbc15cb2d61affb156118fcff01a8238" = "0x576bf0..8238".
Proof. reflexivity. Qed.

(** section 8: a pool priced 5.05 against USD/BRL = 5.0 deviates by 1.0%,
    which is "neutral" *)
Example dev_str_scenario :
  dev_str (505 # 100) (Some 5%Q) = Ok "<span class='neutral'>+1.00%</span>".
Proof. vm_compute. reflexivity. Qed.

(** one pool fails, the three others are reported *)
Example fetch_pool_data_partial_failure :
  let e := env_sample
             (w3_sample (2 ^ 96) 18 18 (Ok (105 * 10 ^ 16))
                "0x1bb53efa5523c80b598b561e266dfdc938f80e4f") http_sample in
  (fun r => (map row_price r.1, map row_dev r.1, r.2)) <$> fetch_pool_data e POOLS =
  Ok (["1.0000"; "ERR"; "1.0000"; "1.0500"],
      ["<span class='negative'>-80.00%</span>"; "—";
       "<span class='negative'>+400.00%</span>";
       "<span class='negative'>-16.00%</span>"],
      "2024-03-07 09:05:00 UTC").
Proof. vm_compute. reflexivity. Qed.

(** the rate service is down: every pool is priced, none has a benchmark *)
Example fetch_pool_data_no_fx :
  let e := env_sample (w3_sample (2 ^ 96) 18 18 (Ok (10 ^ 18)) "")
             (Raise (Exception "timed out")) in
  (fun r => (map row_price r.1, map row_fx_rate r.1, map row_dev r.1)) <$>
    fetch_pool_data e POOLS =
  Ok (["1.0000"; "1.0000"; "1.0000"; "1.0000"], ["—"; "—"; "—"; "—"],
      ["—"; "—"; "—"; "—"]).
Proof. vm_compute. reflexivity. Qed.

Example fetch_bot_data_sample :
  let e := env_sample (w3_sample (2 ^ 96) 18 18 (Ok (10 ^ 18)) "") http_sample in
  map row_balance (fetch_bot_data e BOTS).1 = ["2.5000"; "2.5000"] /\
  map row_balance (fetch_bot_data (env_sample w3_down http_sample) BOTS).1 = ["ERR"; "ERR"].
Proof. split; vm_compute; reflexivity. Qed.

(** ** The worked numbers in binary64

    The concrete numbers of section 8 of the specification, obtained above
    in exact arithmetic, are also what IEEE binary64 gives (a decimal
    literal stands for the double nearest to it). *)

Set Warnings "-inexact-float".

(** raw = 2^96, equal decimals *)
Example binary64_unit_price :
  (let x := 0x1p+96 / 0x1p+96 in
   PrimFloat.eqb (x * x * 1) 1)%float = true.
Proof. reflexivity. Qed.

Example binary64_cross_rates :
  (PrimFloat.eqb (1 / 0.8) 1.25)%float = true /\
  (PrimFloat.eqb (1 / 5) 0.2)%float = true.
Proof. split; reflexivity. Qed.

Example binary64_adjusted_price :
  (PrimFloat.eqb (1.2 * 1.05) 1.26)%float = true.
Proof. reflexivity. Qed.

(** * Further properties of the code *)

(** ** Strings *)

Lemma length_append (s1 s2 : string) :
  String.length (s1 +:+ s2) = (String.length s1 + String.length s2)%nat.
Proof.
  induction s1 as [|c s1 IH]; [reflexivity|].
  change (String c s1 +:+ s2) with (String c (s1 +:+ s2)).
  cbn [String.length]. rewrite IH. reflexivity.
Qed.

Lemma length_zeros (n : nat) : String.length (zeros n) = n.
Proof.
  induction n as [|n IH]; [reflexivity|].
  change (zeros (S n)) with (String "0" (zeros n)).
  cbn [String.length]. rewrite IH. reflexivity.
Qed.

Lemma length_zfill (n : nat) (s : string) : (n <= String.length (zfill n s))%nat.
Proof. unfold zfill. rewrite length_append, length_zeros. lia. Qed.

(** a number printed with four decimals has at least five characters *)
Lemma length_format_f_4 (plus : bool) (x : Q) :
  (5 <= String.length (format_f plus 4 x))%nat.
Proof.
  unfold format_f. rewrite !length_append.
  pose proof (length_zfill 4
    (pretty (round_half_even (Qabs x * inject_Z (10 ^ Z.of_nat 4)) mod 10 ^ Z.of_nat 4))).
  change (String.length ".") with 1%nat. lia.
Qed.

Lemma format_f_4_not_marker (x : Q) :
  format_f false 4 x <> "ERR" /\ format_f false 4 x <> "—".
Proof.
  pose proof (length_format_f_4 false x) as Hlen.
  split; intros E; rewrite E in Hlen; cbn in Hlen; lia.
Qed.

Lemma dev_span_not_dash (cls : string) (dev : Q) : dev_span cls dev <> "—".
Proof.
  unfold dev_span.
  change ("<span class='" +:+ cls +:+ "'>" +:+ format_f true 2 dev +:+ "%</span>")
    with (String "<" ("span class='" +:+ cls +:+ "'>" +:+ format_f true 2 dev +:+ "%</span>")).
  discriminate.
Qed.

(** ** The markers of a pool row *)

(** X5.  In a pool row the error marker and the placeholders are
    unambiguous: the price column is "ERR" exactly when the price fetch
    failed; after a successful fetch the rate column is the placeholder
    exactly when the benchmark is falsy (no pair, absent, [None] or zero),
    the deviation column is the placeholder exactly when the guard
    "benchmark truthy and price > 0" fails, and a row that shows a rate but
    no deviation has a price that is not positive. *)
Theorem pool_row_markers (p : pool) (data : price_result)
    (fx_rates : gmap string (option Q)) (sdai_rate : Q) (row : pool_row) :
  pool_row_of p data fx_rates sdai_rate = Ok row ->
  (row_price row = "ERR" <-> exists err, data = PriceFail err) /\
  (forall price, data = PriceOk price ->
     let P := adjusted_price p price sdai_rate in
     row_price row = format_f false 4 P /\
     (row_fx_rate row = "—" <-> truthy (benchmark p fx_rates) = false) /\
     (row_dev row = "—" <-> truthy (benchmark p fx_rates) && Qltb 0 P = false) /\
     (row_fx_rate row <> "—" -> row_dev row = "—" -> (P <= 0)%Q)).
Proof.
  intros Hrow. destruct data as [price|err].
  - destruct (dev_str_total (adjusted_price p price sdai_rate) (benchmark p fx_rates))
      as (d & Hd).
    assert (Hr : row = {| row_pair := pair p;
              row_addr := short_addr (address p);
              row_full_addr := address p;
              row_price := format_f false 4 (adjusted_price p price sdai_rate);
              row_fx_pair := or_dash (fx_pair p);
              row_fx_rate := match benchmark p fx_rates with
                             | Some r => if truthy_num r then format_f false 4 r else "—"
                             | None => "—"
                             end;
              row_dev := d |}).
    { unfold pool_row_of, mbind, exc_bind in Hrow. rewrite Hd in Hrow. congruence. }
    subst row. cbn [row_price row_fx_rate row_dev].
    assert (Hrate : match benchmark p fx_rates with
                    | Some r => if truthy_num r then format_f false 4 r else "—"
                    | None => "—"
                    end = "—" <-> truthy (benchmark p fx_rates) = false).
    { destruct (benchmark p fx_rates) as [r|]; cbn [truthy]; [|tauto].
      destruct (truthy_num r); [|tauto].
      split; [|discriminate]. intros E. destruct (format_f_4_not_marker r); contradiction. }
    assert (Hdev : d = "—" <-> truthy (benchmark p fx_rates) &&
                     Qltb 0 (adjusted_price p price sdai_rate) = false).
    { destruct (truthy (benchmark p fx_rates) && Qltb 0 (adjusted_price p price sdai_rate))
        eqn:E.
      - apply andb_true_iff in E as [Ht HP].
        destruct (benchmark p fx_rates) as [B|]; [|discriminate].
        cbn [truthy] in Ht. apply truthy_num_true in Ht. apply Qltb_lt in HP.
        rewrite dev_str_numeric in Hd by assumption. injection Hd as <-.
        split; [|discriminate]. intros E. destruct (dev_span_not_dash _ _ E).
      - rewrite dev_str_dash in Hd by assumption. injection Hd as <-. tauto. }
    split.
    + split.
      * intros E. destruct (format_f_4_not_marker (adjusted_price p price sdai_rate)).
        contradiction.
      * intros (err & Herr). discriminate.
    + intros price' [= <-]. cbv zeta.
      split; [reflexivity|]. split; [exact Hrate|]. split; [exact Hdev|].
      intros Hshown Hnone. apply Hdev in Hnone.
      destruct (truthy (benchmark p fx_rates)) eqn:Et.
      * cbn [andb] in Hnone. apply Qltb_ge. exact Hnone.
      * exfalso. apply Hshown, Hrate. reflexivity.
  - cbn in Hrow. injection Hrow as <-. cbn [row_price]. split.
    + split; [eauto | reflexivity].
    + intros price [=].
Qed.

Lemma pool_row_markers_witness :
  exists row,
    pool_row_of {| address := "0x9fc285501a38d734e7b42147445d303cf8f7946b";
                   pair := "BRZ/USDC.E"; fx_pair := "BRL/USD"; sdai_adjust := None |}
      (PriceOk 0) (<["BRL/USD" := Some (1 # 5)]> ∅) 1 = Ok row /\
    row_price row = "0.0000" /\ row_fx_rate row = "0.2000" /\ row_dev row = "—".
Proof.
  eexists. split; [reflexivity|].
  pose proof (pool_row_markers
                {| address := "0x9fc285501a38d734e7b42147445d303cf8f7946b";
                   pair := "BRZ/USDC.E"; fx_pair := "BRL/USD"; sdai_adjust := None |}
                (PriceOk 0) (<["BRL/USD" := Some (1 # 5)]> ∅) 1 _ eq_refl) as (_ & H).
  destruct (H 0%Q eq_refl) as (Hprice & _ & Hdev & _).
  split; [rewrite Hprice; vm_compute; reflexivity|].
  split; [vm_compute; reflexivity|].
  apply Hdev. vm_compute. reflexivity.
Defined.

(** ** The decoded price *)

Lemma normalized_price_spec_sign (raw d0 d1 : Z) :
  (0 <= normalized_price_spec raw d0 d1)%Q /\
  ((normalized_price_spec raw d0 d1 == 0)%Q <-> raw = 0).
Proof.
  unfold normalized_price_spec.
  set (x := (inject_Z raw / 2 ^ 96)%Q).
  assert (Hc : (0 < 10 ^ (d0 - d1))%Q) by (apply Qpower_0_lt; reflexivity).
  assert (Hx : (x == 0)%Q <-> raw = 0).
  { unfold x. split.
    - intros E. assert (E' : (inject_Z raw == 0)%Q).
      { rewrite <- (Qmult_div_r (inject_Z raw) (2 ^ 96)) by discriminate.
        unfold Qdiv in E. rewrite E. reflexivity. }
      unfold Qeq in E'. simpl in E'. lia.
    - intros ->. reflexivity. }
  assert (Hsq : (0 <= x ^ 2)%Q) by apply Qsqr_nonneg.
  split.
  - apply Qmult_le_0_compat; [exact Hsq | apply Qlt_le_weak, Hc].
  - rewrite <- Hx. split.
    + intros E. apply Qmult_integral in E as [E | E].
      * change (x ^ 2)%Q with (x * x)%Q in E.
        apply Qmult_integral in E as [E | E]; exact E.
      * exfalso. rewrite E in Hc. discriminate.
    + intros E. rewrite E. reflexivity.
Qed.

(** X1.  A decoded price is never negative, and it is zero exactly when the
    raw square-root price is zero; so the guard [pool_price > 0] of the
    deviation only ever rejects a pool whose raw price is 0 (or whose
    yield ratio is not positive). *)
Theorem pool_price_sign (e : env) (pool_address a t0 t1 : string)
    (s0 : slot0_t) (d0 d1 : Z) :
  to_checksum_address e pool_address = Ok a ->
  call_slot0 (w3_gnosis e) a = Ok s0 ->
  call_token0 (w3_gnosis e) a = Ok t0 ->
  call_token1 (w3_gnosis e) a = Ok t1 ->
  call_decimals (w3_gnosis e) t0 = Ok d0 ->
  call_decimals (w3_gnosis e) t1 = Ok d1 ->
  exists price, get_pool_price e pool_address = PriceOk price /\
    (0 <= price)%Q /\
    ((price == 0)%Q <-> sqrtPriceX96 s0 = 0) /\
    ((0 < price)%Q <-> sqrtPriceX96 s0 <> 0).
Proof.
  intros Ha Hs Ht0 Ht1 Hd0 Hd1.
  destruct (get_pool_price_try_formula e pool_address a t0 t1 s0 d0 d1)
    as (price & Hprice & Heq); try assumption.
  destruct (normalized_price_spec_sign (sqrtPriceX96 s0) d0 d1) as (Hge & Hzero).
  exists price. unfold get_pool_price. rewrite Hprice. split; [reflexivity|].
  rewrite Heq. split; [exact Hge|]. split; [exact Hzero|].
  rewrite <- Hzero. split.
  - intros Hlt E. rewrite E in Hlt. discriminate.
  - intros Hne. apply Qle_lteq in Hge as [Hlt | E]; [exact Hlt|].
    exfalso. apply Hne. symmetry. exact E.
Qed.

Lemma pool_price_sign_witness :
  exists price,
    get_pool_price (env_sample (w3_sample 0 18 6 (Ok (10 ^ 18)) "") http_sample)
      "0x576bf065cbc15cb2d61affb156118fcff01a8238" = PriceOk price /\
    (price == 0)%Q.
Proof.
  destruct (pool_price_sign
              (env_sample (w3_sample 0 18 6 (Ok (10 ^ 18)) "") http_sample)
              "0x576bf065cbc15cb2d61affb156118fcff01a8238"
              "0x576bf065cbc15cb2d61affb156118fcff01a8238" "token0" "token1"
              {| sqrtPriceX96 := 0; tick := 0; observationIndex := 0;
                 observationCardinality := 1; observationCardinalityNext := 1;
                 feeProtocol := 0; unlocked := true |} 18 6)
    as (price & Hprice & _ & Hzero & _); try reflexivity.
  exists price. split; [exact Hprice|]. apply Hzero. reflexivity.
Defined.

(** X2.  Two pools with the same raw square-root price differ in price by
    the factor 10^((d0' - d1') - (d0 - d1)): the price depends on the
    tokens' decimals only through their difference, and pools with equal
    differences have equal prices. *)
Theorem pool_price_decimal_shift (e : env)
    (addr a t0 t1 : string) (s0 : slot0_t) (d0 d1 : Z)
    (addr' a' t0' t1' : string) (s0' : slot0_t) (d0' d1' : Z) :
  to_checksum_address e addr = Ok a ->
  call_slot0 (w3_gnosis e) a = Ok s0 ->
  call_token0 (w3_gnosis e) a = Ok t0 ->
  call_token1 (w3_gnosis e) a = Ok t1 ->
  call_decimals (w3_gnosis e) t0 = Ok d0 ->
  call_decimals (w3_gnosis e) t1 = Ok d1 ->
  to_checksum_address e addr' = Ok a' ->
  call_slot0 (w3_gnosis e) a' = Ok s0' ->
  call_token0 (w3_gnosis e) a' = Ok t0' ->
  call_token1 (w3_gnosis e) a' = Ok t1' ->
  call_decimals (w3_gnosis e) t0' = Ok d0' ->
  call_decimals (w3_gnosis e) t1' = Ok d1' ->
  sqrtPriceX96 s0' = sqrtPriceX96 s0 ->
  exists price price',
    get_pool_price e addr = PriceOk price /\
    get_pool_price e addr' = PriceOk price' /\
    (price' == price * 10 ^ ((d0' - d1') - (d0 - d1)))%Q /\
    (d0' - d1' = d0 - d1 -> (price' == price)%Q).
Proof.
  intros Ha Hs Ht0 Ht1 Hd0 Hd1 Ha' Hs' Ht0' Ht1' Hd0' Hd1' Hraw.
  destruct (get_pool_price_try_formula e addr a t0 t1 s0 d0 d1)
    as (price & Hprice & Heq); try assumption.
  destruct (get_pool_price_try_formula e addr' a' t0' t1' s0' d0' d1')
    as (price' & Hprice' & Heq'); try assumption.
  exists price, price'. unfold get_pool_price. rewrite Hprice, Hprice'.
  split; [reflexivity|]. split; [reflexivity|].
  assert (Hshift : (price' == price * 10 ^ ((d0' - d1') - (d0 - d1)))%Q).
  { rewrite Heq, Heq'. unfold normalized_price_spec. rewrite Hraw.
    replace (d0' - d1') with ((d0 - d1) + ((d0' - d1') - (d0 - d1))) at 1 by lia.
    rewrite Qpower_plus by discriminate. ring. }
  split; [exact Hshift|].
  intros Hd. rewrite Hshift, Hd, Z.sub_diag. change (10 ^ 0)%Q with 1%Q. ring.
Qed.

Lemma pool_price_decimal_shift_witness :
  exists price price',
    get_pool_price
      (env_sample (w3_tokens (3 * 2 ^ 96) (fun t => if String.eqb t "A:0" then 18
                                                    else if String.eqb t "B:0" then 8
                                                    else 6)) http_sample) "A"
      = PriceOk price /\
    get_pool_price
      (env_sample (w3_tokens (3 * 2 ^ 96) (fun t => if String.eqb t "A:0" then 18
                                                    else if String.eqb t "B:0" then 8
                                                    else 6)) http_sample) "B"
      = PriceOk price' /\
    (price' == price * 10 ^ ((8 - 6) - (18 - 6)))%Q.
Proof.
  destruct (pool_price_decimal_shift
              (env_sample (w3_tokens (3 * 2 ^ 96)
                             (fun t => if String.eqb t "A:0" then 18
                                       else if String.eqb t "B:0" then 8 else 6))
                 http_sample)
              "A" "A" "A:0" "A:1"
              {| sqrtPriceX96 := 3 * 2 ^ 96; tick := 0; observationIndex := 0;
                 observationCardinality := 1; observationCardinalityNext := 1;
                 feeProtocol := 0; unlocked := true |} 18 6
              "B" "B" "B:0" "B:1"
              {| sqrtPriceX96 := 3 * 2 ^ 96; tick := 0; observationIndex := 0;
                 observationCardinality := 1; observationCardinalityNext := 1;
                 feeProtocol := 0; unlocked := true |} 8 6)
    as (price & price' & H1 & H2 & H3 & _); try reflexivity.
  exists price, price'. auto.
Defined.

(** X3.  [get_pool_price] reports a failure exactly when one of its six
    remote steps raises, in the order checksum, slot0, token0, token1,
    decimals of token0, decimals of token1, and the error text is that of
    the first step that raised; the arithmetic of the decoding never
    fails. *)
Theorem get_pool_price_failure_cases (e : env) (pool_address err : string) :
  get_pool_price e pool_address = PriceFail err <->
  exists ex, str_exn ex = err /\
    (to_checksum_address e pool_address = Raise ex \/
     exists a, to_checksum_address e pool_address = Ok a /\
       (call_slot0 (w3_gnosis e) a = Raise ex \/
        exists s0, call_slot0 (w3_gnosis e) a = Ok s0 /\
          (call_token0 (w3_gnosis e) a = Raise ex \/
           exists t0, call_token0 (w3_gnosis e) a = Ok t0 /\
             (call_token1 (w3_gnosis e) a = Raise ex \/
              exists t1, call_token1 (w3_gnosis e) a = Ok t1 /\
                (call_decimals (w3_gnosis e) t0 = Raise ex \/
                 exists d0, call_decimals (w3_gnosis e) t0 = Ok d0 /\
                   call_decimals (w3_gnosis e) t1 = Raise ex))))).
Proof.
  unfold get_pool_price, get_pool_price_try, mbind, exc_bind.
  destruct (to_checksum_address e pool_address) as [a|ex0] eqn:Ha.
  2:{ split.
      - intros [= <-]. exists ex0. auto.
      - intros (ex & <- & [[= ->] | (a & [=] & _)]). reflexivity. }
  destruct (call_slot0 (w3_gnosis e) a) as [s0|ex0] eqn:Hs.
  2:{ split.
      - intros [= <-]. exists ex0. split; [reflexivity|]. right. exists a. auto.
      - intros (ex & <- & [[=] | (a' & [= <-] & [Hr | (s0 & Hs0 & _)])]);
          congruence. }
  destruct (call_token0 (w3_gnosis e) a) as [t0|ex0] eqn:Ht0.
  2:{ split.
      - intros [= <-]. exists ex0. split; [reflexivity|]. right. exists a.
        split; [reflexivity|]. right. exists s0. auto.
      - intros (ex & <- & [[=] | (a' & [= <-] & [Hr | (s0' & Hs0 & [Hr | (t0 & Hx & _)])])]);
          congruence. }
  destruct (call_token1 (w3_gnosis e) a) as [t1|ex0] eqn:Ht1.
  2:{ split.
      - intros [= <-]. exists ex0. split; [reflexivity|]. right. exists a.
        split; [reflexivity|]. right. exists s0. split; [assumption|].
        right. exists t0. auto.
      - intros (ex & <- & [[=] | (a' & [= <-] & [Hr | (s0' & Hs0 &
                 [Hr | (t0' & Hx0 & [Hr | (t1 & Hx1 & _)])])])]); congruence. }
  destruct (call_decimals (w3_gnosis e) t0) as [d0|ex0] eqn:Hd0.
  2:{ split.
      - intros [= <-]. exists ex0. split; [reflexivity|]. right. exists a.
        split; [reflexivity|]. right. exists s0. split; [assumption|].
        right. exists t0. split; [assumption|]. right. exists t1. auto.
      - intros (ex & <- & [[=] | (a' & [= <-] & [Hr | (s0' & Hs0 &
                 [Hr | (t0' & Hx0 & [Hr | (t1' & Hx1 & [Hr | (d0 & Hy & _)])])])])]);
          congruence. }
  destruct (call_decimals (w3_gnosis e) t1) as [d1|ex0] eqn:Hd1.
  2:{ split.
      - intros [= <-]. exists ex0. split; [reflexivity|]. right. exists a.
        split; [reflexivity|]. right. exists s0. split; [assumption|].
        right. exists t0. split; [assumption|]. right. exists t1.
        split; [assumption|]. right. exists d0. auto.
      - intros (ex & <- & [[=] | (a' & [= <-] & [Hr | (s0' & Hs0 &
                 [Hr | (t0' & Hx0 & [Hr | (t1' & Hx1 & [Hr | (d0' & Hy & Hz)])])])])]);
          congruence. }
  rewrite py_div_ok by discriminate.
  destruct (py_int_pow_10 (d0 - d1)) as (pw & -> & _).
  split; [discriminate|].
  intros (ex & _ & [[=] | (a' & [= <-] & [Hr | (s0' & Hs0 &
            [Hr | (t0' & Hx0 & [Hr | (t1' & Hx1 & [Hr | (d0' & Hy & Hz)])])])])]);
    congruence.
Qed.

(** ** The deviation in terms of price and benchmark *)

Lemma deviation_inv (P B dev : Q) :
  deviation P (Some B) = Ok dev ->
  ~ (B == 0)%Q /\ dev = deviation_pct_spec P B.
Proof.
  intros Hd. destruct (Qeq_bool B 0) eqn:E.
  - apply Qeq_bool_iff in E. rewrite deviation_raises in Hd by assumption. discriminate.
  - assert (HB : ~ (B == 0)%Q) by (apply truthy_num_true; unfold truthy_num; rewrite E; reflexivity).
    rewrite deviation_ok in Hd by assumption. split; [exact HB | congruence].
Qed.

Lemma Qabs_deviation (P B : Q) :
  ~ (B == 0)%Q ->
  (Qabs (deviation_pct_spec P B) * Qabs B == Qabs (P - B) * 100)%Q.
Proof.
  intros HB. unfold deviation_pct_spec, Qdiv.
  rewrite !Qabs_Qmult, Qabs_Qinv.
  assert (HB' : ~ (Qabs B == 0)%Q).
  { intros E. apply HB. revert E. apply Qabs_case; intros; lra. }
  change (Qabs 100) with 100%Q. field. exact HB'.
Qed.

Lemma Qabs_pos_nonzero (B : Q) : ~ (B == 0)%Q -> (0 < Qabs B)%Q.
Proof.
  intros HB. pose proof (Qabs_nonneg B) as Hge.
  apply Qle_lteq in Hge as [Hlt | E]; [exact Hlt|].
  exfalso. apply HB. symmetry in E. revert E. apply Qabs_case; intros; lra.
Qed.

#[global] Instance dev_class_comp : Proper (Qeq ==> eq) dev_class.
Proof.
  intros x y Hxy. unfold dev_class.
  rewrite (Qltb_comp _ _ (Qabs_wd x y Hxy) (1 # 2) (1 # 2) (Qeq_refl _)).
  rewrite (Qltb_comp 2%Q 2%Q (Qeq_refl _) _ _ (Qabs_wd x y Hxy)).
  reflexivity.
Qed.

Lemma dev_class_comp_opp (dev : Q) : dev_class (- dev) = dev_class dev.
Proof.
  unfold dev_class.
  rewrite (Qltb_comp _ _ (Qabs_opp dev) (1 # 2) (1 # 2) (Qeq_refl _)).
  rewrite (Qltb_comp 2%Q 2%Q (Qeq_refl _) _ _ (Qabs_opp dev)).
  reflexivity.
Qed.

(** X4.  Where a deviation is computed, its class is a band around the
    benchmark: "positive" exactly when |P - B| < 0.5% of |B|, "negative"
    exactly when |P - B| > 2% of |B|; the deviation is 0 exactly when P = B,
    it has the sign of P - B for a positive benchmark, and a deviation and
    its opposite fall in the same class. *)
Theorem deviation_bands (P B dev : Q) :
  deviation P (Some B) = Ok dev ->
  (dev_class dev = "positive" <-> (Qabs (P - B) < (5 # 1000) * Qabs B)%Q) /\
  (dev_class dev = "negative" <-> ((2 # 100) * Qabs B < Qabs (P - B))%Q) /\
  ((dev == 0)%Q <-> (P == B)%Q) /\
  ((0 < B)%Q -> ((0 < dev)%Q <-> (B < P)%Q) /\ ((dev < 0)%Q <-> (P < B)%Q)) /\
  dev_class (- dev) = dev_class dev.
Proof.
  intros Hd. apply deviation_inv in Hd as (HB & ->).
  pose proof (Qabs_deviation P B HB) as Habs.
  pose proof (Qabs_pos_nonzero B HB) as Hpos.
  set (dev := deviation_pct_spec P B) in *.
  split; [|split; [|split; [|split]]].
  - rewrite dev_class_positive.
    rewrite <- (Qmult_lt_r (Qabs dev) (1 # 2) (Qabs B) Hpos). rewrite Habs. lra.
  - rewrite dev_class_negative.
    rewrite <- (Qmult_lt_r 2 (Qabs dev) (Qabs B) Hpos). rewrite Habs. lra.
  - unfold dev, deviation_pct_spec. split.
    + intros E. assert (E' : ((P - B) / B * 100 * B == 0 * B)%Q) by (rewrite E; reflexivity).
      assert (E2 : ((P - B) / B * 100 * B == (P - B) * 100)%Q) by (field; exact HB).
      rewrite E2 in E'. lra.
    + intros E. rewrite E. field. exact HB.
  - intros HBpos.
    assert (E2 : (dev * B == (P - B) * 100)%Q).
    { unfold dev, deviation_pct_spec. field. exact HB. }
    split.
    + rewrite <- (Qmult_lt_r 0 dev B HBpos). rewrite E2. split; intros; lra.
    + rewrite <- (Qmult_lt_r dev 0 B HBpos). rewrite E2. split; intros; lra.
  - apply dev_class_comp_opp.
Qed.

Lemma deviation_bands_witness :
  dev_class (- deviation_pct_spec (505 # 100) 5) =
  dev_class (deviation_pct_spec (505 # 100) 5).
Proof.
  exact (proj2 (proj2 (proj2 (proj2
    (deviation_bands (505 # 100) 5 (deviation_pct_spec (505 # 100) 5) eq_refl))))).
Defined.

(** ** Rows without a benchmark *)

Lemma benchmark_none (p : pool) (fx_rates : gmap string (option Q)) :
  (forall k, dict_get fx_rates k = None) -> benchmark p fx_rates = None.
Proof.
  intros Hnone. unfold benchmark. destruct (truthy_str (fx_pair p)); [apply Hnone | reflexivity].
Qed.

Lemma pool_row_of_no_benchmark (p : pool) (data : price_result)
    (fx_rates : gmap string (option Q)) (sdai_rate : Q) (row : pool_row) :
  benchmark p fx_rates = None ->
  pool_row_of p data fx_rates sdai_rate = Ok row ->
  row_fx_rate row = "—" /\ row_dev row = "—" /\
  row_fx_pair row = or_dash (fx_pair p) /\
  row_price row =
    match data with
    | PriceOk price => format_f false 4 (adjusted_price p price sdai_rate)
    | PriceFail _ => "ERR"
    end.
Proof.
  intros Hb Hrow. destruct data as [price|err].
  - unfold pool_row_of, mbind, exc_bind in Hrow. rewrite Hb in Hrow.
    rewrite dev_str_dash in Hrow by reflexivity. injection Hrow as <-. cbn. auto.
  - cbn in Hrow. injection Hrow as <-. cbn. auto.
Qed.

Lemma fx_outcome_failed (e : env) :
  ((exists ex, requests_get e FX_URL = Raise ex) \/
   (exists resp, requests_get e FX_URL = Ok resp /\
      (status_code resp <> 200 \/ json resp = Ok JsonOther \/
       exists ex, json resp = Raise ex))) ->
  fx_outcome e = ∅.
Proof.
  unfold fx_outcome. intros [(ex & ->) | (resp & -> & Hbad)]; [reflexivity|].
  destruct (status_code resp =? 200) eqn:Es; [|reflexivity].
  destruct Hbad as [Hs | [-> | (ex & ->)]]; [|reflexivity|reflexivity].
  apply Z.eqb_eq in Es. contradiction.
Qed.

(** X6.  When the rate service cannot be used (the request raises, the
    status is not 200, or the body is not a JSON object), the pool
    orchestrator still returns one row per pool: each row shows the
    placeholder for rate and deviation, and its price column is unaffected,
    the formatted price of a pool that was read and "ERR" for one that
    was not. *)
Theorem fx_outage_rows (e : env) (pools : list pool) :
  ((exists ex, requests_get e FX_URL = Raise ex) \/
   (exists resp, requests_get e FX_URL = Ok resp /\
      (status_code resp <> 200 \/ json resp = Ok JsonOther \/
       exists ex, json resp = Raise ex))) ->
  exists rows, fetch_pool_data e pools = Ok (rows, strftime (gmtime e)) /\
    Forall2 (fun p row =>
      row_fx_rate row = "—" /\ row_dev row = "—" /\
      row_fx_pair row = or_dash (fx_pair p) /\
      row_price row =
        match get_pool_price e (address p) with
        | PriceOk price => format_f false 4 (adjusted_price p price (get_sdai_rate e))
        | PriceFail _ => "ERR"
        end) pools rows.
Proof.
  intros Hfail.
  destruct (fetch_pool_data_rows e pools) as (rows & fx_rates & Hfx & Hfetch & Hall).
  rewrite get_fx_rates_outcome, (fx_outcome_failed e Hfail) in Hfx.
  injection Hfx as <-.
  exists rows. split; [exact Hfetch|].
  eapply Forall2_impl; [exact Hall|].
  intros p row Hrow. cbv beta in Hrow.
  apply (pool_row_of_no_benchmark p _ ∅ (get_sdai_rate e) row); [|exact Hrow].
  apply benchmark_none. intros k. unfold dict_get. rewrite lookup_empty. reflexivity.
Qed.

Lemma fx_outage_rows_witness :
  exists rows,
    fetch_pool_data
      (env_sample (w3_sample (2 ^ 96) 18 18 (Ok (10 ^ 18)) "")
         (Ok {| status_code := 503; json := Raise (Exception "no JSON") |})) POOLS
      = Ok (rows, "2024-03-07 09:05:00 UTC") /\
    map row_dev rows = ["—"; "—"; "—"; "—"].
Proof.
  destruct (fx_outage_rows
              (env_sample (w3_sample (2 ^ 96) 18 18 (Ok (10 ^ 18)) "")
                 (Ok {| status_code := 503; json := Raise (Exception "no JSON") |})) POOLS)
    as (rows & Hrows & Hall).
  - right. eexists. split; [reflexivity|]. left. discriminate.
  - exists rows. split; [exact Hrows|].
    vm_compute in Hrows. injection Hrows as <-. reflexivity.
Defined.

(** ** The keys of the rate table *)






(** ** The orchestrators on concatenated configurations *)

Lemma Forall2_rows_unique {A B : Type} (f : A -> exc B) (l : list A) (r1 r2 : list B) :
  Forall2 (fun a b => f a = Ok b) l r1 ->
  Forall2 (fun a b => f a = Ok b) l r2 -> r1 = r2.
Proof.
  intros H1. revert r2. induction H1 as [|a b l r1 Hab _ IH]; intros r2 H2.
  - inversion H2. reflexivity.
  - inversion H2 as [|a' b' l' r2' Hab' Hrest]; subst.
    rewrite (IH r2' Hrest). congruence.
Qed.

(** X8.  Both orchestrators work item by item: on an empty configuration
    they return no rows (and the timestamp), and the rows of a concatenated
    configuration are the rows of its first part followed by the rows of
    its second part, so a row does not depend on the items around it. *)
Theorem orchestrators_compose (e : env) (ps qs : list pool) (bs cs : list bot) :
  fetch_pool_data e [] = Ok ([], strftime (gmtime e)) /\
  (exists r1 r2,
     fetch_pool_data e ps = Ok (r1, strftime (gmtime e)) /\
     fetch_pool_data e qs = Ok (r2, strftime (gmtime e)) /\
     fetch_pool_data e (ps ++ qs) = Ok ((r1 ++ r2)%list, strftime (gmtime e))) /\
  fetch_bot_data e [] = ([], strftime (gmtime e)) /\
  fetch_bot_data e (bs ++ cs) =
    (((fetch_bot_data e bs).1 ++ (fetch_bot_data e cs).1)%list, strftime (gmtime e)).
Proof.
  split; [|split; [|split]].
  - destruct (fetch_pool_data_rows e []) as (rows & fx & _ & Hf & Hall).
    inversion Hall. subst. exact Hf.
  - destruct (fetch_pool_data_rows e ps) as (r1 & fx1 & Hfx1 & Hf1 & Hall1).
    destruct (fetch_pool_data_rows e qs) as (r2 & fx2 & Hfx2 & Hf2 & Hall2).
    destruct (fetch_pool_data_rows e (ps ++ qs)) as (r & fx & Hfx & Hf & Hall).
    assert (fx1 = fx) as -> by congruence. assert (fx2 = fx) as -> by congruence.
    exists r1, r2. split; [exact Hf1|]. split; [exact Hf2|].
    rewrite Hf. do 2 f_equal.
    eapply Forall2_rows_unique; [exact Hall|].
    apply Forall2_app; assumption.
  - reflexivity.
  - unfold fetch_bot_data. rewrite !bot_loop_rows. cbn [fst app].
    rewrite map_app. reflexivity.
Qed.

(** ** The endpoint of a balance read *)

(** X9.  A bot's balance is read from the reference-chain endpoint exactly
    when its chain is the string "mainnet", and then the row links to
    etherscan; for any other chain string the balance comes from the
    primary-chain endpoint and the row links to gnosisscan.  The endpoint
    that is not selected has no influence, and a balance that was read is
    wei / 10^18. *)
Theorem bot_balance_endpoint (e : env) (b : bot) (other : web3) :
  (bot_chain b = "mainnet" ->
     get_bot_balance (with_gnosis other e) (bot_address b) (bot_chain b) =
       get_bot_balance e (bot_address b) (bot_chain b) /\
     row_explorer (bot_row_of b (get_bot_balance e (bot_address b) (bot_chain b))) =
       "https://etherscan.io" /\
     forall a wei, to_checksum_address e (bot_address b) = Ok a ->
       get_balance (w3_mainnet e) a = Ok wei ->
       get_bot_balance e (bot_address b) (bot_chain b) =
         BalanceOk (inject_Z wei / inject_Z (10 ^ 18))%Q) /\
  (bot_chain b <> "mainnet" ->
     get_bot_balance (with_mainnet other e) (bot_address b) (bot_chain b) =
       get_bot_balance e (bot_address b) (bot_chain b) /\
     row_explorer (bot_row_of b (get_bot_balance e (bot_address b) (bot_chain b))) =
       "https://gnosisscan.io" /\
     forall a wei, to_checksum_address e (bot_address b) = Ok a ->
       get_balance (w3_gnosis e) a = Ok wei ->
       get_bot_balance e (bot_address b) (bot_chain b) =
         BalanceOk (inject_Z wei / inject_Z (10 ^ 18))%Q).
Proof.
  split.
  - intros Hc. unfold get_bot_balance, get_bot_balance_try, bot_row_of.
    rewrite Hc. cbn [String.eqb Ascii.eqb Bool.eqb row_explorer].
    split; [reflexivity|]. split; [reflexivity|].
    intros a wei Ha Hw. unfold mbind, exc_bind. rewrite Ha, Hw.
    rewrite py_div_ok by discriminate. reflexivity.
  - intros Hc. apply String.eqb_neq in Hc.
    unfold get_bot_balance, get_bot_balance_try, bot_row_of.
    rewrite Hc. cbn [row_explorer].
    split; [reflexivity|]. split; [reflexivity|].
    intros a wei Ha Hw. unfold mbind, exc_bind. rewrite Ha, Hw.
    rewrite py_div_ok by discriminate. reflexivity.
Qed.

(** ** Pools without the yield flag *)

Lemma pool_row_of_unflagged (p : pool) (data : price_result)
    (fx_rates : gmap string (option Q)) (r r' : Q) :
  sdai_adjust p <> Some true ->
  pool_row_of p data fx_rates r = pool_row_of p data fx_rates r'.
Proof.
  intros Hp. destruct data as [price|err]; [|reflexivity].
  assert (Hadj : forall x, adjusted_price p price x = price).
  { intros x. unfold adjusted_price. destruct (sdai_adjust p) as [[|]|]; try reflexivity.
    contradiction. }
  unfold pool_row_of. rewrite (Hadj r), (Hadj r'). reflexivity.
Qed.

Lemma pool_loop_unflagged (e e' : env) (fx_rates : gmap string (option Q)) (r r' : Q)
    (pools : list pool) :
  (forall a, get_pool_price e' a = get_pool_price e a) ->
  Forall (fun p => sdai_adjust p <> Some true) pools ->
  forall rows, pool_loop e' fx_rates r' pools rows = pool_loop e fx_rates r pools rows.
Proof.
  intros Hprice Hall. induction Hall as [|p rest Hp _ IH]; intros rows; [reflexivity|].
  cbn [pool_loop]. rewrite Hprice.
  rewrite (pool_row_of_unflagged p _ fx_rates r' r Hp).
  unfold mbind, exc_bind.
  destruct (pool_row_of p (get_pool_price e (address p)) fx_rates r); [apply IH | reflexivity].
Qed.

(** X10.  The vault matters to flagged pools only: for a configuration in
    which no pool carries [sdai_adjust], the orchestrator returns the same
    rows and timestamp whether the vault answers or not. *)
Theorem unflagged_pools_ignore_vault (e : env) (pools : list pool) :
  Forall (fun p => sdai_adjust p <> Some true) pools ->
  fetch_pool_data (vault_down e) pools = fetch_pool_data e pools.
Proof.
  intros Hall. unfold fetch_pool_data.
  change (get_fx_rates (vault_down e)) with (get_fx_rates e).
  change (gmtime (vault_down e)) with (gmtime e).
  unfold mbind, exc_bind. destruct (get_fx_rates e) as [fx_rates|ex]; [|reflexivity].
  rewrite (pool_loop_unflagged e (vault_down e) fx_rates
             (get_sdai_rate e) (get_sdai_rate (vault_down e)) pools); auto.
Qed.

Lemma unflagged_pools_ignore_vault_witness :
  fetch_pool_data
    (vault_down (env_sample (w3_sample (2 ^ 96) 18 18 (Ok (105 * 10 ^ 16)) "") http_sample))
    (firstn 3 POOLS) =
  fetch_pool_data
    (env_sample (w3_sample (2 ^ 96) 18 18 (Ok (105 * 10 ^ 16)) "") http_sample)
    (firstn 3 POOLS).
Proof.
  apply (unflagged_pools_ignore_vault
           (env_sample (w3_sample (2 ^ 96) 18 18 (Ok (105 * 10 ^ 16)) "") http_sample)
           (firstn 3 POOLS)).
  repeat constructor; discriminate.
Defined.

(** ** The vault's APY *)

(** X11.  [get_sdai_apy] returns the vault's answer scaled from 1e18 to a
    percentage, that is apy_wei / 10^16, which is not negative for an
    unsigned answer; it returns 0 exactly in the failure cases, when the
    checksum of the vault address or the vault call raises, and never
    raises itself. *)
Theorem get_sdai_apy_value (e : env) :
  (forall a w, to_checksum_address e SDAI_VAULT_ADDRESS = Ok a ->
     call_vaultAPY (w3_gnosis e) a = Ok w ->
     (get_sdai_apy e == inject_Z w / inject_Z (10 ^ 16))%Q /\
     (0 <= w -> (0 <= get_sdai_apy e)%Q)) /\
  (forall ex, get_sdai_apy_try e = Raise ex <->
     to_checksum_address e SDAI_VAULT_ADDRESS = Raise ex \/
     exists a, to_checksum_address e SDAI_VAULT_ADDRESS = Ok a /\
       call_vaultAPY (w3_gnosis e) a = Raise ex) /\
  (forall ex, get_sdai_apy_try e = Raise ex -> get_sdai_apy e = 0%Q).
Proof.
  split; [|split].
  - intros a w Ha Hw.
    assert (Hv : get_sdai_apy e = (inject_Z w / inject_Z (10 ^ 18) * 100)%Q).
    { unfold get_sdai_apy, get_sdai_apy_try, mbind, exc_bind. rewrite Ha, Hw.
      rewrite py_div_ok by discriminate. reflexivity. }
    rewrite Hv.
    change (inject_Z (10 ^ 18)) with (1000000000000000000 # 1)%Q.
    change (inject_Z (10 ^ 16)) with (10000000000000000 # 1)%Q.
    split.
    + field.
    + intros Hge. assert (Hq : (0 <= inject_Z w)%Q).
      { unfold Qle. simpl. lia. }
      assert (Hm : (inject_Z w / (1000000000000000000 # 1) * 100 ==
                    inject_Z w * (1 # 10000000000000000))%Q) by field.
      rewrite Hm. apply Qmult_le_0_compat; [exact Hq | discriminate].
  - intros ex. unfold get_sdai_apy_try, mbind, exc_bind.
    destruct (to_checksum_address e SDAI_VAULT_ADDRESS) as [a|ex0].
    + destruct (call_vaultAPY (w3_gnosis e) a) as [w|ex1] eqn:Hw.
      * rewrite py_div_ok by discriminate. split; [discriminate|].
        intros [[=] | (a' & [= <-] & Hr)]. congruence.
      * split.
        -- intros [= <-]. right. exists a. auto.
        -- intros [[=] | (a' & [= <-] & Hr)]. congruence.
    + split.
      * intros [= <-]. auto.
      * intros [[= ->] | (a' & [=] & _)]. reflexivity.
  - intros ex Hex. unfold get_sdai_apy. rewrite Hex. reflexivity.
Qed.

(** ** Shortened addresses *)

Lemma length_substring (s : string) :
  forall k m, String.length (substring k m s) = Nat.min m (String.length s - k).
Proof.
  induction s as [|c s IH]; intros k m.
  - destruct k, m; cbn; lia.
  - destruct k as [|k].
    + destruct m as [|m]; [reflexivity|].
      cbn [substring String.length]. rewrite IH. cbn. lia.
    + cbn [substring String.length]. rewrite IH. cbn. lia.
Qed.

Lemma substring_all (s : string) :
  forall m, (String.length s <= m)%nat -> substring 0 m s = s.
Proof.
  induction s as [|c s IH]; intros m Hm.
  - destruct m; reflexivity.
  - destruct m as [|m]; cbn [String.length] in Hm; [lia|].
    cbn [substring]. rewrite IH by lia. reflexivity.
Qed.

(** X12.  The shortened address [a[:8] + ".." + a[-4:]] has
    min(8,|a|) + 2 + min(4,|a|) characters, hence 14 for every address of at
    least 8 characters; for an address of at most 4 characters both slices
    are the whole address, which then shows twice. *)
Theorem short_addr_shape (a : string) :
  String.length (short_addr a) =
    (Nat.min 8 (String.length a) + 2 + Nat.min 4 (String.length a))%nat /\
  ((8 <= String.length a)%nat -> String.length (short_addr a) = 14%nat) /\
  ((String.length a <= 4)%nat -> short_addr a = a +:+ ".." +:+ a).
Proof.
  assert (Hlen : String.length (short_addr a) =
            (Nat.min 8 (String.length a) + 2 + Nat.min 4 (String.length a))%nat).
  { unfold short_addr, str_take, str_last. rewrite !length_append, !length_substring.
    change (String.length "..") with 2%nat. lia. }
  split; [exact Hlen|]. split.
  - intros H8. rewrite Hlen. lia.
  - intros H4. unfold short_addr, str_take, str_last.
    replace (String.length a - 4)%nat with 0%nat by lia.
    rewrite !substring_all by lia. reflexivity.
Qed.
